(** * tools/nb_to_jl.py: notebook to Julia script converter

    A shallow embedding of [tools/nb_to_jl.py] and the properties of its
    behaviour.

    Conventions of the embedding.
    - A Python [str] (and the text of a file opened with
      [encoding='utf-8'] on a POSIX system, where text mode does not
      rewrite ['\n'] on output) is a [string].  The characters the script
      looks for (["/"], ["."], the letters of the extensions) are ASCII,
      so the same definitions read on code points and on UTF-8 bytes.
    - Python integers are [Z]; [str.rfind] answers [-1] when nothing is
      found, as in Python.
    - The file system, the console and the record of the system calls
      made form an explicit [World]; a Python call that may raise is a
      function [World -> result A * World].
    - [nbformat.reads] belongs to the external [nbformat] package: it is
      a parameter of the development.  The script is embedded twice.
      At the top level the reader answers a notebook of the data model
      of the specification, whose cells carry a [cell_type] and a
      [source] string, or it raises.  In module [Dyn] it answers a
      notebook as the package returns it: a violation of the schema is
      only logged there, so a cell may lack an attribute or carry a
      value that is not a string, and lines 17 and 18 may raise.  The
      two agree on the notebooks of the data model
      ([convert_agrees_on_data_model]).
    - [str.endswith], [str.rfind], slicing and [os.path.splitext] follow
      the CPython definitions ([genericpath._splitext] for the last). *)

From Stdlib Require Import ZArith Ascii Lia.
From Stdlib Require String.
From stdpp Require Import base gmap strings list.

(** ** Python strings *)

Module Str.

(** [len(s)] *)
Definition len (s : string) : Z := Z.of_nat (String.length s).

(** Index adjustment of a slice bound (step 1): a negative bound counts
    from the end, and the result is clipped to [0 .. len]. *)
Definition adjust (n i : Z) : Z :=
  if (i <? 0)%Z then Z.max 0 (i + n) else Z.min i n.

(** [s[lo:hi]]; [None] is an omitted bound. *)
Definition slice (s : string) (lo hi : option Z) : string :=
  let n := len s in
  let start := match lo with Some i => adjust n i | None => 0%Z end in
  let stop := match hi with Some i => adjust n i | None => n end in
  String.substring (Z.to_nat start) (Z.to_nat (stop - start)) s.

(** [s.endswith(suffix)] *)
Definition endswith (s suffix : string) : bool :=
  let n := String.length s in
  let m := String.length suffix in
  if (m <=? n)%nat
  then String.eqb (String.substring (n - m) m s) suffix
  else false.

(** [sub] occurs in [s] at index 0. *)
Fixpoint match_here (sub s : string) : bool :=
  match sub with
  | EmptyString => true
  | String a sub' =>
      match s with
      | EmptyString => false
      | String b s' => Ascii.eqb a b && match_here sub' s'
      end
  end.

(** The highest index at which [sub] occurs in [s], if any. *)
Fixpoint rfind_index (s sub : string) : option nat :=
  match s with
  | EmptyString => if match_here sub s then Some 0%nat else None
  | String _ s' =>
      match rfind_index s' sub with
      | Some i => Some (S i)
      | None => if match_here sub s then Some 0%nat else None
      end
  end.

(** [s.rfind(sub)] *)
Definition rfind (s sub : string) : Z :=
  match rfind_index s sub with
  | Some i => Z.of_nat i
  | None => (-1)%Z
  end.

End Str.

(** ** [os.path] on POSIX *)

Module posixpath.

Definition sep : string := "/".
Definition altsep : option string := None.
Definition extsep : string := ".".

(** The [while filenameIndex < dotIndex] loop of [_splitext]; [n] is
    the number of iterations left, [dotIndex - filenameIndex]. *)
Fixpoint skip_leading_dots (p extsep : string) (n : nat)
    (filenameIndex dotIndex : Z) : string * string :=
  match n with
  | O => (p, Str.slice p None (Some 0%Z))
  | S n' =>
      if negb (String.eqb
                 (Str.slice p (Some filenameIndex) (Some (filenameIndex + 1)%Z))
                 extsep)
      then (Str.slice p None (Some dotIndex), Str.slice p (Some dotIndex) None)
      else skip_leading_dots p extsep n' (filenameIndex + 1)%Z dotIndex
  end.

(** [genericpath._splitext(p, sep, altsep, extsep)] *)
Definition _splitext (p sep : string) (altsep : option string)
    (extsep : string) : string * string :=
  let sepIndex := Str.rfind p sep in
  let sepIndex :=
    match altsep with
    | Some a =>
        if String.eqb a "" then sepIndex
        else Z.max sepIndex (Str.rfind p a)
    | None => sepIndex
    end in
  let dotIndex := Str.rfind p extsep in
  if (sepIndex <? dotIndex)%Z
  then skip_leading_dots p extsep
         (Z.to_nat (dotIndex - (sepIndex + 1))) (sepIndex + 1)%Z dotIndex
  else (p, Str.slice p None (Some 0%Z)).

(** [os.path.splitext(p)] *)
Definition splitext (p : string) : string * string :=
  _splitext p sep altsep extsep.

End posixpath.

(** ** The path handling of [main] *)

(** The output path of [main], line 29. *)
Definition derive_output_path (notebook_path : string) : string :=
  (posixpath.splitext notebook_path).1 +:+ ".jl".

(** ** The world the script runs in *)

(** The exceptions that reach the top level.  [ValueError] is raised by
    [main] for a wrong extension (the specification calls this error
    InvalidInputError); [OSError] stands for the failures of [open] (a
    missing file, a directory, a permission); the [nbformat] package
    raises whatever its reader answers; [AttributeError] and [TypeError]
    are raised by lines 17 and 18 on a cell that lacks an attribute or
    whose [source] is not a string. *)
Inductive exn : Type :=
| ValueError (msg : string)
| OSError (filename : string)
| ReaderError (msg : string)
| AttributeError (name : string)
| TypeError (type_name : string).

Inductive result (A : Type) : Type :=
| Ok (a : A)
| Raise (e : exn).
Arguments Ok {A} a.
Arguments Raise {A} e.

(** The system calls and console writes of a run, oldest first. *)
Inductive Event : Type :=
| EvOpen (path mode : string)
| EvRead (path : string)
| EvWrite (path data : string)
| EvClose (path : string)
| EvPrint (line : string).

(** [files] holds the text of every regular file; [rdenied] and
    [wdenied] are the paths at which the system refuses [open] for
    reading and for writing (a directory, a missing parent, a
    permission); [stdout] holds the lines printed, oldest first. *)
Record World : Type := mkWorld {
  files : gmap string string;
  rdenied : gset string;
  wdenied : gset string;
  stdout : list string;
  events : list Event
}.

Definition set_files (fs : gmap string string) (w : World) : World :=
  mkWorld fs (rdenied w) (wdenied w) (stdout w) (events w).

Definition record (e : Event) (w : World) : World :=
  mkWorld (files w) (rdenied w) (wdenied w) (stdout w) (events w ++ [e]).

Definition M (A : Type) : Type := World -> result A * World.

Definition raise {A : Type} (e : exn) : M A := fun w => (Raise e, w).

Definition lift {A : Type} (r : result A) : M A := fun w => (r, w).

#[global] Instance M_ret : MRet M := fun A a w => (Ok a, w).

#[global] Instance M_bind : MBind M := fun A B k m w =>
  match m w with
  | (Ok a, w1) => k a w1
  | (Raise e, w1) => (Raise e, w1)
  end.

(** [try: m finally: fin] *)
Definition finally {A B : Type} (m : M A) (fin : M B) : M A := fun w =>
  match m w with
  | (r, w1) =>
      match fin w1 with
      | (Ok _, w2) => (r, w2)
      | (Raise e, w2) => (Raise e, w2)
      end
  end.

(** [for x in l: body x] *)
Fixpoint for_ {A : Type} (l : list A) (body : A -> M unit) : M unit :=
  match l with
  | [] => mret tt
  | x :: l' => body x ;; for_ l' body
  end.

(** *** Text files *)

Record TextIO : Type := mkTextIO { name : string }.

(** [open(file, mode, encoding='utf-8')].  Mode ['w'] creates the file
    or truncates it to zero length. *)
Definition open_ (file mode : string) : M TextIO := fun w =>
  let w1 := record (EvOpen file mode) w in
  if String.eqb mode "r" then
    match files w !! file with
    | Some _ =>
        if decide (file ∈ rdenied w) then (Raise (OSError file), w1)
        else (Ok (mkTextIO file), w1)
    | None => (Raise (OSError file), w1)
    end
  else if String.eqb mode "w" then
    if decide (file ∈ wdenied w) then (Raise (OSError file), w1)
    else (Ok (mkTextIO file), set_files (<[file := ""]> (files w)) w1)
  else (Raise (ValueError "invalid mode"), w).

(** [f.read()] *)
Definition fread (f : TextIO) : M string := fun w =>
  match files w !! name f with
  | Some text => (Ok text, record (EvRead (name f)) w)
  | None => (Raise (OSError (name f)), w)
  end.

(** [f.write(s)]: appends [s] and answers the number of characters. *)
Definition fwrite (f : TextIO) (s : string) : M Z := fun w =>
  match files w !! name f with
  | Some text =>
      (Ok (Str.len s),
       set_files (<[name f := text +:+ s]> (files w))
                 (record (EvWrite (name f) s) w))
  | None => (Raise (OSError (name f)), w)
  end.

(** [f.close()] *)
Definition fclose (f : TextIO) : M unit := fun w =>
  (Ok tt, record (EvClose (name f)) w).

(** [with cm as f: body f]: the file is closed on every way out. *)
Definition with_ {A : Type} (cm : M TextIO) (body : TextIO -> M A) : M A :=
  f ← cm; finally (body f) (fclose f).

(** [print(line)] *)
Definition print (line : string) : M unit := fun w =>
  (Ok tt,
   mkWorld (files w) (rdenied w) (wdenied w) (stdout w ++ [line])
           (events w ++ [EvPrint line])).

(** ** Notebooks *)

Record Cell : Type := mkCell {
  cell_type : string;
  source : string
}.

Record NotebookNode : Type := mkNotebook {
  nbformat : Z;
  nbformat_minor : Z;
  cells : list Cell
}.

(** ['\n\n'] *)
Definition LFLF : string := String "010" (String "010" EmptyString).

(** ** The script *)

(** The exit status of the interpreter: 0 when [main] returns, 1 when an
    exception reaches the top level. *)
Definition exit_status (r : result unit) : Z :=
  match r with
  | Ok _ => 0%Z
  | Raise _ => 1%Z
  end.

(** The body of the loop over the cells, lines 17 and 18. *)
Definition write_cell (f : TextIO) (cell : Cell) : M unit :=
  if String.eqb (cell_type cell) "code"
  then fwrite f (source cell +:+ LFLF) ;; mret tt
  else mret tt.

Section Script.

(** [nbformat.reads(s, as_version)], of the [nbformat] package. *)
Variable nbformat_reads : string -> Z -> result NotebookNode.

(** [nbformat.read(fp, as_version)]: reads the whole file, then parses. *)
Definition nbformat_read (fp : TextIO) (as_version : Z) : M NotebookNode :=
  buf ← fread fp; lift (nbformat_reads buf as_version).

Definition convert_notebook_to_julia (notebook_path output_path : string)
    : M unit :=
  (* Read the notebook *)
  nb ← with_ (open_ notebook_path "r") (fun f => nbformat_read f 4%Z);
  (* Extract code cells and write to the output file *)
  with_ (open_ output_path "w") (fun f =>
    for_ (cells nb) (write_cell f)).

(** [main()], from [notebook_path = args.notebook] on. *)
Definition main (notebook : string) : M unit :=
  let notebook_path := notebook in
  if negb (Str.endswith notebook_path ".ipynb")
  then raise (ValueError "Input file must have a .ipynb extension")
  else
    let output_path := (posixpath.splitext notebook_path).1 +:+ ".jl" in
    convert_notebook_to_julia notebook_path output_path ;;
    print ("Converted " +:+ notebook_path +:+ " to " +:+ output_path).

(** [if __name__ == "__main__": main()] *)
Definition run_script (notebook : string) (w : World) : Z * World :=
  let (r, w') := main notebook w in (exit_status r, w').

End Script.

(** ** The specification's words *)

(** A code cell is a cell whose type tag equals "code". *)
Definition is_code_cell (c : Cell) : bool := String.eqb (cell_type c) "code".

(** The payloads of the code cells, in the order of the notebook. *)
Definition code_payloads (nb : NotebookNode) : list string :=
  map source (List.filter is_code_cell (cells nb)).

(** Each payload followed by two newline characters, concatenated. *)
Definition spec_output (nb : NotebookNode) : string :=
  foldr String.append "" (map (fun s => s +:+ LFLF) (code_payloads nb)).

(** The final component of a path holds no ["/"]. *)
Definition no_slash (s : string) : bool :=
  (Str.rfind s "/" =? -1)%Z.

(** Every character of [s] is a dot. *)
Fixpoint all_dots (s : string) : bool :=
  match s with
  | EmptyString => true
  | String c s' => Ascii.eqb c "." && all_dots s'
  end.

(** The lower-case form of an ASCII letter; other characters are kept. *)
Definition lower_ascii (c : ascii) : ascii :=
  let n := nat_of_ascii c in
  if (65 <=? n)%nat && (n <=? 90)%nat then ascii_of_nat (n + 32) else c.

Fixpoint lower (s : string) : string :=
  match s with
  | EmptyString => EmptyString
  | String c s' => String (lower_ascii c) (lower s')
  end.

(** The last character of a string, if it has one. *)
Fixpoint last_char (s : string) : option ascii :=
  match s with
  | EmptyString => None
  | String c EmptyString => Some c
  | String _ s' => last_char s'
  end.

(** The path an event opens for writing or writes to, if it does. *)
Definition written_path (ev : Event) : option string :=
  match ev with
  | EvOpen path mode => if String.eqb mode "w" then Some path else None
  | EvWrite path _ => Some path
  | _ => None
  end.

Definition written_paths (evs : list Event) : list string :=
  omap written_path evs.

(** The text written for a list of cells: each code payload followed by
    the separator. *)
Definition chunks (cs : list Cell) : list string :=
  map (fun s => s +:+ LFLF) (map source (List.filter is_code_cell cs)).

(** The input cannot be opened or parsed, and [e] is the exception. *)
Inductive load_failure (reads : string -> Z -> result NotebookNode)
    (w : World) (notebook_path : string) : exn -> Prop :=
| load_missing :
    files w !! notebook_path = None ->
    load_failure reads w notebook_path (OSError notebook_path)
| load_denied text :
    files w !! notebook_path = Some text ->
    notebook_path ∈ rdenied w ->
    load_failure reads w notebook_path (OSError notebook_path)
| load_unparsable text e :
    files w !! notebook_path = Some text ->
    notebook_path ∉ rdenied w ->
    reads text 4%Z = Raise e ->
    load_failure reads w notebook_path e.

(** ** A sample world, for the examples *)

Definition LF : string := String "010" EmptyString.

Definition sample_notebook : NotebookNode :=
  mkNotebook 4 5
    [ mkCell "markdown" "# Title"; mkCell "code" "x = 1"; mkCell "code" "y = 2" ].

(** A code cell with newlines, a tab, a backslash and a quote. *)
Definition special_cell : Cell :=
  mkCell "code"
    ("function f(x)" +:+ LF +:+ String "009" "x \ 2  # 50% 'of' {x}" +:+ LF +:+ "end").

Definition special_notebook : NotebookNode :=
  mkNotebook 4 5
    [ mkCell "code" "using Test"; mkCell "raw" "---"; special_cell;
      mkCell "code" "using Test" ].

Definition prose_notebook : NotebookNode :=
  mkNotebook 4 5 [ mkCell "markdown" "# Notes"; mkCell "raw" "plain" ].

(** A reader that knows three documents. *)
Definition sample_reads (s : string) (as_version : Z) : result NotebookNode :=
  if String.eqb s "{sample}" then Ok sample_notebook
  else if String.eqb s "{special}" then Ok special_notebook
  else if String.eqb s "{prose}" then Ok prose_notebook
  else Raise (ReaderError "Notebook does not appear to be JSON").

Definition sample_world : World :=
  mkWorld
    (<[ "demo.jl" := "stale text" ]>
       (<[ "special.ipynb" := "{special}" ]>
          (<[ "prose.ipynb" := "{prose}" ]>
             (<[ "broken.ipynb" := "not a notebook" ]>
                {[ "demo.ipynb" := "{sample}" ]}))))
    ∅ {[ "locked.jl" ]} [] [].

(** A world in which the output of "locked.ipynb" cannot be opened. *)
Definition locked_world : World :=
  mkWorld (<[ "locked.ipynb" := "{sample}" ]> (files sample_world))
          ∅ {[ "locked.jl" ]} [] [].

(** ** Notebooks as the reader returns them

    [nbformat.reads] checks the notebook against the schema, logs a
    violation and returns the notebook all the same.  A cell is then a
    dictionary read through attributes: [cell.cell_type] and
    [cell.source] raise [AttributeError] on a missing key, and the value
    under a key is any JSON value. *)

Module Dyn.

(** The value of an attribute of a cell: a string, or a value of
    another type (a number, a list, [None]), of which the name of the
    type is kept. *)
Inductive pyval : Type :=
| PyStr (s : string)
| PyOther (type_name : string).

Record Cell : Type := mkCell {
  cell_type : option pyval;
  source : option pyval
}.

Record NotebookNode : Type := mkNotebook {
  nbformat : Z;
  nbformat_minor : Z;
  cells : list Cell
}.

(** [cell.name], where [v] is what the cell holds under [name]. *)
Definition getattr (v : option pyval) (name : string) : M pyval :=
  match v with
  | Some x => mret x
  | None => raise (AttributeError name)
  end.

(** [v == 'code'] *)
Definition is_code (v : pyval) : bool :=
  match v with
  | PyStr s => String.eqb s "code"
  | PyOther _ => false
  end.

(** [v + s], for a string [s]. *)
Definition add_str (v : pyval) (s : string) : M string :=
  match v with
  | PyStr t => mret (t +:+ s)
  | PyOther type_name => raise (TypeError type_name)
  end.

(** The body of the loop over the cells, lines 17 and 18. *)
Definition write_cell (f : TextIO) (cell : Cell) : M unit :=
  ty ← getattr (cell_type cell) "cell_type";
  if is_code ty
  then
    src ← getattr (source cell) "source";
    text ← add_str src LFLF;
    fwrite f text ;; mret tt
  else mret tt.

Section Script.

(** [nbformat.reads(s, as_version)], of the [nbformat] package. *)
Variable nbformat_reads : string -> Z -> result NotebookNode.

(** [nbformat.read(fp, as_version)]: reads the whole file, then parses. *)
Definition nbformat_read (fp : TextIO) (as_version : Z) : M NotebookNode :=
  buf ← fread fp; lift (nbformat_reads buf as_version).

Definition convert_notebook_to_julia (notebook_path output_path : string)
    : M unit :=
  (* Read the notebook *)
  nb ← with_ (open_ notebook_path "r") (fun f => nbformat_read f 4%Z);
  (* Extract code cells and write to the output file *)
  with_ (open_ output_path "w") (fun f =>
    for_ (cells nb) (write_cell f)).

End Script.

(** The cell has the structure the specification expects: a type tag
    and a source, both strings. *)
Definition well_formed (c : Cell) : bool :=
  match cell_type c, source c with
  | Some (PyStr _), Some (PyStr _) => true
  | _, _ => false
  end.

(** The exception lines 17 and 18 raise on the cell, if they do. *)
Definition cell_error (c : Cell) : option exn :=
  match cell_type c with
  | None => Some (AttributeError "cell_type")
  | Some ty =>
      if is_code ty
      then
        match source c with
        | None => Some (AttributeError "source")
        | Some (PyStr _) => None
        | Some (PyOther type_name) => Some (TypeError type_name)
        end
      else None
  end.

(** The input cannot be opened, or the reader raises, and [e] is the
    exception. *)
Inductive load_failure (reads : string -> Z -> result NotebookNode)
    (w : World) (notebook_path : string) : exn -> Prop :=
| load_missing :
    files w !! notebook_path = None ->
    load_failure reads w notebook_path (OSError notebook_path)
| load_denied text :
    files w !! notebook_path = Some text ->
    notebook_path ∈ rdenied w ->
    load_failure reads w notebook_path (OSError notebook_path)
| load_refused text e :
    files w !! notebook_path = Some text ->
    notebook_path ∉ rdenied w ->
    reads text 4%Z = Raise e ->
    load_failure reads w notebook_path e.

End Dyn.

(** A notebook of the data model, as the reader returns it. *)
Definition dyn_cell (c : Cell) : Dyn.Cell :=
  Dyn.mkCell (Some (Dyn.PyStr (cell_type c))) (Some (Dyn.PyStr (source c))).

Definition dyn_notebook (nb : NotebookNode) : Dyn.NotebookNode :=
  Dyn.mkNotebook (nbformat nb) (nbformat_minor nb) (map dyn_cell (cells nb)).

Definition dyn_reads (reads : string -> Z -> result NotebookNode)
    (s : string) (as_version : Z) : result Dyn.NotebookNode :=
  match reads s as_version with
  | Ok nb => Ok (dyn_notebook nb)
  | Raise e => Raise e
  end.

(** *** Sample notebooks that violate the schema *)

(** The second code cell has no [source]. *)
Definition unsourced_notebook : Dyn.NotebookNode :=
  Dyn.mkNotebook 4 5
    [ Dyn.mkCell (Some (Dyn.PyStr "code")) (Some (Dyn.PyStr "first"));
      Dyn.mkCell (Some (Dyn.PyStr "code")) None;
      Dyn.mkCell (Some (Dyn.PyStr "code")) (Some (Dyn.PyStr "never")) ].

(** The first cell has no [cell_type]. *)
Definition untyped_notebook : Dyn.NotebookNode :=
  Dyn.mkNotebook 4 5
    [ Dyn.mkCell None (Some (Dyn.PyStr "x = 1"));
      Dyn.mkCell (Some (Dyn.PyStr "code")) (Some (Dyn.PyStr "y = 2")) ].

(** A reader that knows the documents of [sample_reads] and two that
    violate the schema. *)
Definition lenient_reads (s : string) (as_version : Z)
    : result Dyn.NotebookNode :=
  if String.eqb s "{unsourced}" then Ok unsourced_notebook
  else if String.eqb s "{untyped}" then Ok untyped_notebook
  else dyn_reads sample_reads s as_version.

Definition lenient_world : World :=
  mkWorld
    (<[ "bad.ipynb" := "{unsourced}" ]>
       (<[ "bad.jl" := "stale text" ]>
          (<[ "untyped.ipynb" := "{untyped}" ]>
             (<[ "untyped.jl" := "stale text" ]> (files sample_world)))))
    ∅ ∅ [] [].

(** * Properties *)

(** Closed goals about the sample world are settled by evaluation. *)
Ltac evaluate :=
  vm_compute;
  first [ reflexivity | discriminate | let H := fresh in intros H; discriminate H ].

Example splitext_plain :
  posixpath.splitext "dir.d/analysis.v2.ipynb" = ("dir.d/analysis.v2", ".ipynb").
Proof. reflexivity. Qed.

Example splitext_dotfile :
  posixpath.splitext "dir/.ipynb" = ("dir/.ipynb", "").
Proof. reflexivity. Qed.

Example splitext_two_dots :
  posixpath.splitext "..ipynb" = ("..ipynb", "").
Proof. reflexivity. Qed.

Example splitext_no_ext :
  posixpath.splitext "a.b/c" = ("a.b/c", "").
Proof. reflexivity. Qed.

Example rfind_examples :
  Str.rfind "a/b/c" "/" = 3%Z /\ Str.rfind "abc" "/" = (-1)%Z
  /\ Str.rfind "abc" "" = 3%Z /\ Str.rfind "abab" "ab" = 2%Z.
Proof. repeat split; reflexivity. Qed.

Example endswith_examples :
  Str.endswith "nb.ipynb" ".ipynb" = true
  /\ Str.endswith "nb.IPYNB" ".ipynb" = false
  /\ Str.endswith "ipynb" ".ipynb" = false
  /\ Str.endswith ".ipynb" ".ipynb" = true.
Proof. repeat split; reflexivity. Qed.

Example derive_output_path_examples :
  derive_output_path "notebooks/demo.ipynb" = "notebooks/demo.jl"
  /\ derive_output_path ".ipynb" = ".ipynb.jl".
Proof. split; reflexivity. Qed.

(** ** Facts about strings *)

Section StringFacts.

Implicit Types s t pre suf : string.

Lemma sapp_cons c s t : String c s +:+ t = String c (s +:+ t).
Proof. reflexivity. Qed.

Lemma sapp_nil_l s : "" +:+ s = s.
Proof. reflexivity. Qed.

Lemma sapp_nil_r s : s +:+ "" = s.
Proof.
  induction s as [|c s IH]; [done|]. by rewrite sapp_cons, IH.
Qed.

Lemma sapp_assoc s t u : (s +:+ t) +:+ u = s +:+ t +:+ u.
Proof.
  induction s as [|c s IH]; [done|]. by rewrite !sapp_cons, IH.
Qed.

Lemma slength_app s t :
  String.length (s +:+ t) = (String.length s + String.length t)%nat.
Proof.
  induction s as [|c s IH]; [done|]. rewrite sapp_cons. simpl. by rewrite IH.
Qed.

Lemma len_app s t : Str.len (s +:+ t) = (Str.len s + Str.len t)%Z.
Proof. unfold Str.len. rewrite slength_app. lia. Qed.

Lemma len_nonneg s : (0 <= Str.len s)%Z.
Proof. unfold Str.len. lia. Qed.

Lemma substring_0_0 s : String.substring 0 0 s = "".
Proof. by destruct s. Qed.

Lemma substring_0_all s : String.substring 0 (String.length s) s = s.
Proof. induction s as [|c s IH]; simpl; [done | by rewrite IH]. Qed.

Lemma substring_0_app s t :
  String.substring 0 (String.length s) (s +:+ t) = s.
Proof.
  induction s as [|c s IH]; [apply substring_0_0|].
  rewrite sapp_cons. simpl. by rewrite IH.
Qed.

Lemma substring_skip_app s t n m :
  String.substring (String.length s + n) m (s +:+ t) = String.substring n m t.
Proof.
  induction s as [|c s IH]; [done|]. rewrite sapp_cons. simpl. apply IH.
Qed.

Lemma substring_at_app s t m :
  String.substring (String.length s) m (s +:+ t) = String.substring 0 m t.
Proof.
  rewrite <- (Nat.add_0_r (String.length s)). apply substring_skip_app.
Qed.

Lemma substring_split s n :
  (n <= String.length s)%nat ->
  s = String.substring 0 n s +:+ String.substring n (String.length s - n) s.
Proof.
  revert s. induction n as [|n IH]; intros s Hn.
  - rewrite substring_0_0, Nat.sub_0_r, substring_0_all. done.
  - destruct s as [|c s]; simpl in Hn; [lia|].
    simpl. rewrite sapp_cons. f_equal. apply IH. lia.
Qed.

(** *** Slices *)

Lemma slice_prefix s t : Str.slice (s +:+ t) None (Some (Str.len s)) = s.
Proof.
  unfold Str.slice, Str.adjust. rewrite len_app.
  pose proof (len_nonneg s). pose proof (len_nonneg t).
  destruct (Z.ltb_spec (Str.len s) 0); [lia|].
  rewrite Z.min_l by lia. rewrite Z.sub_0_r. unfold Str.len.
  rewrite Nat2Z.id. apply substring_0_app.
Qed.

Lemma slice_suffix s t : Str.slice (s +:+ t) (Some (Str.len s)) None = t.
Proof.
  unfold Str.slice, Str.adjust. rewrite len_app.
  pose proof (len_nonneg s). pose proof (len_nonneg t).
  destruct (Z.ltb_spec (Str.len s) 0); [lia|].
  rewrite Z.min_l by lia.
  replace (Str.len s + Str.len t - Str.len s)%Z with (Str.len t) by lia.
  unfold Str.len. rewrite !Nat2Z.id, substring_at_app.
  apply substring_0_all.
Qed.

Lemma slice_empty s : Str.slice s None (Some 0%Z) = "".
Proof.
  unfold Str.slice, Str.adjust. simpl.
  pose proof (len_nonneg s). rewrite Z.min_l by lia. apply substring_0_0.
Qed.

Lemma slice_char s c t :
  Str.slice (s +:+ String c t) (Some (Str.len s)) (Some (Str.len s + 1)%Z)
  = String c "".
Proof.
  unfold Str.slice, Str.adjust. rewrite len_app.
  pose proof (len_nonneg s). pose proof (len_nonneg t).
  assert (Str.len (String c t) = (1 + Str.len t)%Z) as ->
    by (unfold Str.len; simpl; lia).
  destruct (Z.ltb_spec (Str.len s) 0); [lia|].
  destruct (Z.ltb_spec (Str.len s + 1) 0); [lia|].
  rewrite !Z.min_l by lia.
  replace (Str.len s + 1 - Str.len s)%Z with 1%Z by lia.
  unfold Str.len. rewrite Nat2Z.id, substring_at_app. simpl.
  by rewrite substring_0_0.
Qed.

(** *** [endswith] *)

Lemma endswith_app pre suf : Str.endswith (pre +:+ suf) suf = true.
Proof.
  unfold Str.endswith. rewrite slength_app.
  destruct (Nat.leb_spec (String.length suf)
              (String.length pre + String.length suf)); [|lia].
  replace (String.length pre + String.length suf - String.length suf)%nat
    with (String.length pre) by lia.
  rewrite substring_at_app, substring_0_all. apply String.eqb_refl.
Qed.

Lemma endswith_inv s suf :
  Str.endswith s suf = true -> exists pre, s = pre +:+ suf.
Proof.
  unfold Str.endswith.
  destruct (Nat.leb_spec (String.length suf) (String.length s)) as [Hle|];
    [|done].
  intros Heq%String.eqb_eq.
  exists (String.substring 0 (String.length s - String.length suf) s).
  pose proof (substring_split s (String.length s - String.length suf)) as Hs.
  replace (String.length s - (String.length s - String.length suf))%nat
    with (String.length suf) in Hs by lia.
  rewrite Heq in Hs. apply Hs. lia.
Qed.

(** A suffix of the length of [suf] is the one [endswith] compares. *)
Lemma endswith_same_length pre ext suf :
  String.length ext = String.length suf ->
  Str.endswith (pre +:+ ext) suf = String.eqb ext suf.
Proof.
  intros Hlen. unfold Str.endswith. rewrite slength_app, <- Hlen.
  destruct (Nat.leb_spec (String.length ext)
              (String.length pre + String.length ext)); [|lia].
  replace (String.length pre + String.length ext - String.length ext)%nat
    with (String.length pre) by lia.
  by rewrite substring_at_app, substring_0_all.
Qed.

End StringFacts.

(** ** Facts about [rfind] and [splitext] *)

Section PathFacts.

Implicit Types s t p dir name ext : string.

Lemma sapp_snoc_cons s c t : (s +:+ String c "") +:+ t = s +:+ String c t.
Proof. by rewrite sapp_assoc. Qed.

(** An occurrence in the right part is found there. *)
Lemma rfind_index_app_hit s t sub i :
  Str.rfind_index t sub = Some i ->
  Str.rfind_index (s +:+ t) sub = Some (String.length s + i)%nat.
Proof.
  intros Ht. induction s as [|a s IH]; [done|].
  rewrite sapp_cons. simpl. by rewrite IH.
Qed.

(** A character absent from the right part is looked for in the left. *)
Lemma rfind_index_app_miss s t c :
  Str.rfind_index t (String c "") = None ->
  Str.rfind_index (s +:+ t) (String c "") = Str.rfind_index s (String c "").
Proof.
  intros Ht. induction s as [|a s IH].
  - by rewrite sapp_nil_l, Ht.
  - rewrite sapp_cons. simpl. by rewrite IH.
Qed.

Lemma rfind_index_none_app s t c :
  Str.rfind_index s (String c "") = None ->
  Str.rfind_index t (String c "") = None ->
  Str.rfind_index (s +:+ t) (String c "") = None.
Proof. intros Hs Ht. by rewrite rfind_index_app_miss. Qed.

Lemma no_slash_index s :
  no_slash s = true <-> Str.rfind_index s "/" = None.
Proof.
  unfold no_slash, Str.rfind. destruct (Str.rfind_index s "/") as [i|].
  - split; [|done]. intros H%Z.eqb_eq. lia.
  - done.
Qed.

(** The index of the last separator of [dir +:+ rest], when [dir] is
    empty or ends with the separator and [rest] holds none. *)
Lemma rfind_sep dir rest :
  (dir = "" \/ exists d, dir = d +:+ "/") ->
  Str.rfind_index rest "/" = None ->
  Str.rfind (dir +:+ rest) "/" = (Str.len dir - 1)%Z.
Proof.
  intros [-> | [d ->]] Hrest; unfold Str.rfind.
  - by rewrite sapp_nil_l, Hrest.
  - rewrite sapp_assoc.
    rewrite (rfind_index_app_hit d ("/" +:+ rest) "/" 0).
    + rewrite len_app. unfold Str.len. simpl. lia.
    + change ("/" +:+ rest) with (String "/" rest). simpl. by rewrite Hrest.
Qed.

(** The loop of [_splitext] over the final component [name]. *)
Lemma skip_leading_dots_spec name : forall pre ext,
  posixpath.skip_leading_dots (pre +:+ name +:+ ext) "."
    (String.length name) (Str.len pre) (Str.len (pre +:+ name))
  = if all_dots name
    then (pre +:+ name +:+ ext, "")
    else (pre +:+ name, ext).
Proof.
  induction name as [|c name IH]; intros pre ext.
  - simpl. by rewrite slice_empty.
  - cbn [posixpath.skip_leading_dots all_dots String.length].
    rewrite sapp_cons, slice_char.
    change (String.eqb (String c "") ".") with (Ascii.eqb c "." && true).
    rewrite andb_true_r.
    destruct (Ascii.eqb c ".") eqn:Hc; cbn [negb andb].
    + specialize (IH (pre +:+ String c "") ext).
      rewrite !sapp_snoc_cons in IH.
      rewrite len_app in IH. change (Str.len (String c "")) with 1%Z in IH.
      rewrite <- sapp_cons. exact IH.
    + rewrite <- sapp_cons, <- sapp_assoc.
      by rewrite slice_prefix, slice_suffix.
Qed.

Lemma splitext_spec dir name ext :
  (dir = "" \/ exists d, dir = d +:+ "/") ->
  no_slash name = true ->
  Str.rfind_index ext "." = Some 0%nat ->
  Str.rfind_index ext "/" = None ->
  posixpath.splitext (dir +:+ name +:+ ext)
  = if all_dots name
    then (dir +:+ name +:+ ext, "")
    else (dir +:+ name, ext).
Proof.
  intros Hdir Hname%no_slash_index Hdot Hsep.
  unfold posixpath.splitext, posixpath._splitext.
  unfold posixpath.altsep, posixpath.sep, posixpath.extsep.
  rewrite (rfind_sep dir (name +:+ ext) Hdir (rfind_index_none_app _ _ _ Hname Hsep)).
  assert (Str.rfind (dir +:+ name +:+ ext) "." = Str.len (dir +:+ name)) as ->.
  { rewrite <- sapp_assoc. unfold Str.rfind.
    rewrite (rfind_index_app_hit _ _ _ _ Hdot). unfold Str.len. lia. }
  rewrite len_app.
  pose proof (len_nonneg name).
  destruct (Z.ltb_spec (Str.len dir - 1) (Str.len dir + Str.len name)); [|lia].
  replace (Z.to_nat (Str.len dir + Str.len name - (Str.len dir - 1 + 1)))
    with (String.length name) by (unfold Str.len; lia).
  replace (Str.len dir - 1 + 1)%Z with (Str.len dir) by lia.
  rewrite <- len_app. apply skip_leading_dots_spec.
Qed.

(** Every path is a directory part, empty or ending with the
    separator, followed by a final component without separator. *)
Lemma path_split s :
  exists dir name,
    s = dir +:+ name
    /\ (dir = "" \/ exists d, dir = d +:+ "/")
    /\ no_slash name = true.
Proof.
  induction s as [|c s (dir & name & Hs & Hdir & Hname)].
  - exists "", "". split; [done|]. split; [by left|done].
  - destruct Hdir as [-> | [d ->]].
    + rewrite sapp_nil_l in Hs. subst name.
      destruct (Ascii.eqb c "/") eqn:Hc.
      * apply Ascii.eqb_eq in Hc as ->.
        exists "/", s. split; [done|]. split; [|done]. right. by exists "".
      * exists "", (String c s). split; [done|]. split; [by left|].
        apply no_slash_index. apply no_slash_index in Hname.
        cbn [Str.rfind_index]. rewrite Hname. cbn [Str.match_here].
        by rewrite Ascii.eqb_sym, Hc.
    + exists (String c d +:+ "/"), name. rewrite Hs. split; [done|].
      split; [|done]. right. by exists (String c d).
Qed.

(** Every accepted path is a directory part, the stem of the final
    component and the extension. *)
Lemma accepted_path_split p :
  Str.endswith p ".ipynb" = true ->
  exists dir name,
    p = dir +:+ name +:+ ".ipynb"
    /\ (dir = "" \/ exists d, dir = d +:+ "/")
    /\ no_slash name = true.
Proof.
  intros [stem ->]%endswith_inv.
  destruct (path_split stem) as (dir & name & -> & Hdir & Hname).
  exists dir, name. by rewrite sapp_assoc.
Qed.

End PathFacts.

(** ** Facts about runs *)

Section RunFacts.

Variable nbformat_reads : string -> Z -> result NotebookNode.

Implicit Types w : World.
Implicit Types np op text : string.

Lemma chunks_cons c cs :
  chunks (c :: cs)
  = if String.eqb (cell_type c) "code"
    then (source c +:+ LFLF) :: chunks cs
    else chunks cs.
Proof.
  unfold chunks, is_code_cell. cbn [List.filter].
  by destruct (String.eqb (cell_type c) "code").
Qed.

(** The loop of [convert_notebook_to_julia] appends the chunks of the
    code cells, in order, to the text of the open file. *)
Lemma write_cells_spec f cs : forall w text,
  files w !! name f = Some text ->
  for_ cs (write_cell f) w
  = (Ok tt,
     mkWorld (<[name f := text +:+ foldr String.append "" (chunks cs)]> (files w))
             (rdenied w) (wdenied w) (stdout w)
             (events w ++ map (EvWrite (name f)) (chunks cs))).
Proof.
  induction cs as [|c cs IH]; intros w text Hf.
  - cbn. rewrite sapp_nil_r, (insert_id _ _ _ Hf), app_nil_r. by destruct w.
  - cbn [for_]. unfold mbind, M_bind, write_cell at 1.
    rewrite chunks_cons.
    destruct (String.eqb (cell_type c) "code").
    + unfold fwrite, mbind, M_bind, mret, M_ret. rewrite Hf.
      erewrite IH; [|cbn; apply lookup_insert_eq].
      cbn. by rewrite insert_insert_eq, sapp_assoc, <- app_assoc.
    + unfold mret, M_ret. by apply IH.
Qed.

(** *** Loading the notebook, lines 11 and 12 *)

Lemma load_ok np w text nb :
  files w !! np = Some text ->
  np ∉ rdenied w ->
  nbformat_reads text 4%Z = Ok nb ->
  with_ (open_ np "r") (fun f => nbformat_read nbformat_reads f 4%Z) w
  = (Ok nb,
     mkWorld (files w) (rdenied w) (wdenied w) (stdout w)
             (events w ++ [EvOpen np "r"; EvRead np; EvClose np])).
Proof.
  intros Hf Hr Hnb.
  unfold with_, open_, finally, nbformat_read, fread, fclose, lift.
  unfold mbind, M_bind. cbn. rewrite Hf. rewrite decide_False by done.
  cbn. rewrite Hf, Hnb. unfold record. cbn. by rewrite <- !app_assoc.
Qed.

Lemma load_fail np w e :
  load_failure nbformat_reads w np e ->
  exists evs,
    with_ (open_ np "r") (fun f => nbformat_read nbformat_reads f 4%Z) w
    = (Raise e,
       mkWorld (files w) (rdenied w) (wdenied w) (stdout w) (events w ++ evs))
    /\ written_paths evs = [].
Proof.
  intros [Hf | text Hf Hr | text e' Hf Hr Hnb];
    unfold with_, open_, finally, nbformat_read, fread, fclose, lift;
    unfold mbind, M_bind; cbn; rewrite Hf.
  - by exists [EvOpen np "r"].
  - rewrite decide_True by done. by exists [EvOpen np "r"].
  - rewrite decide_False by done. cbn. rewrite Hf, Hnb. unfold record. cbn.
    exists [EvOpen np "r"; EvRead np; EvClose np]. by rewrite <- !app_assoc.
Qed.

(** Either the notebook loads or it fails to. *)
Lemma load_cases np w :
  (exists text nb,
      files w !! np = Some text /\ (np ∉ rdenied w)
      /\ nbformat_reads text 4%Z = Ok nb)
  \/ (exists e, load_failure nbformat_reads w np e).
Proof.
  destruct (files w !! np) as [text|] eqn:Hf.
  - destruct (decide (np ∈ rdenied w)) as [Hr|Hr].
    + right. eexists. by eapply load_denied.
    + destruct (nbformat_reads text 4%Z) as [nb|e] eqn:Hnb.
      * left. by exists text, nb.
      * right. exists e. by eapply load_unparsable.
  - right. eexists. by apply load_missing.
Qed.

(** *** The three outcomes of [convert_notebook_to_julia] *)

Lemma convert_unfold np op :
  convert_notebook_to_julia nbformat_reads np op
  = (nb ← with_ (open_ np "r") (fun f => nbformat_read nbformat_reads f 4%Z);
     with_ (open_ op "w") (fun f => for_ (cells nb) (write_cell f))).
Proof. reflexivity. Qed.

Lemma convert_ok np op w text nb :
  files w !! np = Some text ->
  np ∉ rdenied w ->
  nbformat_reads text 4%Z = Ok nb ->
  op ∉ wdenied w ->
  convert_notebook_to_julia nbformat_reads np op w
  = (Ok tt,
     mkWorld (<[op := spec_output nb]> (files w))
             (rdenied w) (wdenied w) (stdout w)
             (events w
                ++ [EvOpen np "r"; EvRead np; EvClose np; EvOpen op "w"]
                ++ map (EvWrite op) (chunks (cells nb))
                ++ [EvClose op])).
Proof.
  intros Hf Hr Hnb Hw. rewrite convert_unfold.
  unfold mbind, M_bind at 1. rewrite (load_ok _ _ _ _ Hf Hr Hnb).
  unfold with_, open_, finally, fclose, mbind, M_bind. cbn.
  rewrite decide_False by done.
  erewrite write_cells_spec; [|cbn; apply lookup_insert_eq].
  unfold record, set_files. cbn. rewrite insert_insert_eq.
  unfold spec_output, code_payloads. fold (chunks (cells nb)).
  rewrite <- !app_assoc. done.
Qed.

Lemma convert_write_denied np op w text nb :
  files w !! np = Some text ->
  np ∉ rdenied w ->
  nbformat_reads text 4%Z = Ok nb ->
  op ∈ wdenied w ->
  convert_notebook_to_julia nbformat_reads np op w
  = (Raise (OSError op),
     mkWorld (files w) (rdenied w) (wdenied w) (stdout w)
             (events w
                ++ [EvOpen np "r"; EvRead np; EvClose np; EvOpen op "w"])).
Proof.
  intros Hf Hr Hnb Hw. rewrite convert_unfold.
  unfold mbind, M_bind at 1. rewrite (load_ok _ _ _ _ Hf Hr Hnb).
  unfold with_, open_, finally, fclose, mbind, M_bind. cbn.
  rewrite decide_True by done. unfold record. cbn.
  by rewrite <- !app_assoc.
Qed.

Lemma convert_load_fail np op w e :
  load_failure nbformat_reads w np e ->
  exists evs,
    convert_notebook_to_julia nbformat_reads np op w
    = (Raise e,
       mkWorld (files w) (rdenied w) (wdenied w) (stdout w) (events w ++ evs))
    /\ written_paths evs = [].
Proof.
  intros (evs & Hload & Hevs)%load_fail. exists evs. split; [|done].
  rewrite convert_unfold. unfold mbind, M_bind at 1. by rewrite Hload.
Qed.

(** A run that returns has loaded the notebook and opened the output. *)
Lemma convert_ok_inv np op w w' :
  convert_notebook_to_julia nbformat_reads np op w = (Ok tt, w') ->
  exists text nb,
    files w !! np = Some text /\ (np ∉ rdenied w)
    /\ nbformat_reads text 4%Z = Ok nb /\ (op ∉ wdenied w).
Proof.
  intros Hrun.
  destruct (load_cases np w) as [(text & nb & Hf & Hr & Hnb) | [e He]].
  - exists text, nb. repeat split; try done.
    intros Hw. by rewrite (convert_write_denied _ _ _ _ _ Hf Hr Hnb Hw) in Hrun.
  - destruct (convert_load_fail np op w e He) as (evs & Hfail & _).
    by rewrite Hfail in Hrun.
Qed.

(** *** [main] *)

Lemma main_accepted p :
  Str.endswith p ".ipynb" = true ->
  main nbformat_reads p
  = (convert_notebook_to_julia nbformat_reads p (derive_output_path p) ;;
     print ("Converted " +:+ p +:+ " to " +:+ derive_output_path p)).
Proof. intros Hp. unfold main. by rewrite Hp. Qed.

Lemma main_rejected p w :
  Str.endswith p ".ipynb" = false ->
  main nbformat_reads p w
  = (Raise (ValueError "Input file must have a .ipynb extension"), w).
Proof. intros Hp. unfold main. by rewrite Hp. Qed.

Lemma main_ok p w text nb :
  Str.endswith p ".ipynb" = true ->
  files w !! p = Some text ->
  p ∉ rdenied w ->
  nbformat_reads text 4%Z = Ok nb ->
  derive_output_path p ∉ wdenied w ->
  main nbformat_reads p w
  = (Ok tt,
     mkWorld (<[derive_output_path p := spec_output nb]> (files w))
             (rdenied w) (wdenied w)
             (stdout w ++ ["Converted " +:+ p +:+ " to " +:+ derive_output_path p])
             (events w
                ++ ([EvOpen p "r"; EvRead p; EvClose p;
                     EvOpen (derive_output_path p) "w"]
                    ++ map (EvWrite (derive_output_path p)) (chunks (cells nb))
                    ++ [EvClose (derive_output_path p)])
                ++ [EvPrint ("Converted " +:+ p +:+ " to "
                             +:+ derive_output_path p)])).
Proof.
  intros Hp Hf Hr Hnb Hw. rewrite (main_accepted _ Hp).
  unfold mbind, M_bind. rewrite (convert_ok _ _ _ _ _ Hf Hr Hnb Hw).
  unfold print. cbn. by rewrite <- app_assoc.
Qed.

Lemma main_ok_inv p w w' :
  main nbformat_reads p w = (Ok tt, w') ->
  Str.endswith p ".ipynb" = true
  /\ exists text nb,
      files w !! p = Some text /\ (p ∉ rdenied w)
      /\ nbformat_reads text 4%Z = Ok nb
      /\ (derive_output_path p ∉ wdenied w).
Proof.
  intros Hrun.
  destruct (Str.endswith p ".ipynb") eqn:Hp;
    [|by rewrite (main_rejected _ _ Hp) in Hrun].
  split; [done|]. rewrite (main_accepted _ Hp) in Hrun.
  unfold mbind, M_bind in Hrun.
  destruct (convert_notebook_to_julia nbformat_reads p (derive_output_path p) w)
    as [[[] | e] w1] eqn:Hconv; [|done].
  by apply convert_ok_inv in Hconv.
Qed.

End RunFacts.

(** ** Facts about the written text *)

Section OutputFacts.

Implicit Types s t : string.
Implicit Types cs : list Cell.

Lemma chunks_no_code cs :
  Forall (fun c => cell_type c ≠ "code") cs -> chunks cs = [].
Proof.
  induction 1 as [|c cs Hc _ IH]; [done|].
  rewrite chunks_cons. by apply String.eqb_neq in Hc as ->.
Qed.

Lemma chunks_code_cell cs c :
  In c cs -> cell_type c = "code" -> In (source c +:+ LFLF) (chunks cs).
Proof.
  intros Hin Hc. induction cs as [|c' cs IH]; [done|].
  rewrite chunks_cons. destruct Hin as [-> | Hin].
  - rewrite Hc. cbn. by left.
  - destruct (String.eqb (cell_type c') "code"); [right|]; by apply IH.
Qed.

(** A chunk of the list is a contiguous part of the concatenation. *)
Lemma concat_chunk (l : list string) s :
  In s l ->
  exists before after, foldr String.append "" l = before +:+ s +:+ after.
Proof.
  induction l as [|x l IH]; [done|]. intros [-> | Hin].
  - by exists "", (foldr String.append "" l).
  - destruct (IH Hin) as (before & after & Heq).
    exists (x +:+ before), after. cbn [foldr]. by rewrite Heq, sapp_assoc.
Qed.

Lemma last_char_app s t : t ≠ "" -> last_char (s +:+ t) = last_char t.
Proof.
  intros Ht. induction s as [|c s IH]; [done|].
  rewrite sapp_cons. cbn [last_char]. rewrite IH.
  destruct (s +:+ t) eqn:Hst; [|done].
  destruct s; [|done]. by rewrite sapp_nil_l in Hst.
Qed.

(** The input and the output path of [main] differ. *)
Lemma output_path_fresh p :
  Str.endswith p ".ipynb" = true -> p ≠ derive_output_path p.
Proof.
  intros [pre ->]%endswith_inv Heq. unfold derive_output_path in Heq.
  apply (f_equal last_char) in Heq. by rewrite !last_char_app in Heq.
Qed.

Lemma length_lower s : String.length (lower s) = String.length s.
Proof. induction s as [|c s IH]; [done|]. cbn. by rewrite IH. Qed.

Lemma written_paths_writes op (l : list string) q :
  q ∈ written_paths (map (EvWrite op) l) -> q = op.
Proof.
  unfold written_paths. intros (ev & Hev & Hq)%list_elem_of_omap.
  apply list_elem_of_In, in_map_iff in Hev as (x & <- & _).
  cbn in Hq. congruence.
Qed.

End OutputFacts.

(** * Results *)

(** C2, as the code has it: for a path that ends in ".ipynb", written
    as a directory part, the stem of the final component and the
    extension, the output path is the path with ".ipynb" replaced by
    ".jl" when the stem holds a character other than a dot; when the
    stem is empty or holds dots only, [splitext] finds no extension and
    ".jl" is appended to the whole path. *)
Theorem output_path_of_accepted_path (dir name : string) :
  (dir = "" \/ exists d, dir = d +:+ "/") ->
  no_slash name = true ->
  Str.endswith (dir +:+ name +:+ ".ipynb") ".ipynb" = true
  /\ derive_output_path (dir +:+ name +:+ ".ipynb")
     = if all_dots name
       then (dir +:+ name +:+ ".ipynb") +:+ ".jl"
       else dir +:+ name +:+ ".jl".
Proof.
  intros Hdir Hname. split.
  - rewrite <- sapp_assoc. apply endswith_app.
  - unfold derive_output_path.
    rewrite (splitext_spec dir name ".ipynb" Hdir Hname eq_refl eq_refl).
    destruct (all_dots name); cbn [fst]; [done|]. by rewrite sapp_assoc.
Qed.

(** C9: a path whose final component is exactly ".ipynb" passes the
    test of the extension, and its output path is the whole path with
    ".jl" appended, not the path with the extension replaced. *)
Theorem output_path_of_dotfile (dir : string) :
  (dir = "" \/ exists d, dir = d +:+ "/") ->
  Str.endswith (dir +:+ ".ipynb") ".ipynb" = true
  /\ derive_output_path (dir +:+ ".ipynb") = (dir +:+ ".ipynb") +:+ ".jl"
  /\ derive_output_path (dir +:+ ".ipynb") ≠ dir +:+ ".jl".
Proof.
  intros Hdir.
  assert (derive_output_path (dir +:+ ".ipynb") = (dir +:+ ".ipynb") +:+ ".jl")
    as Hout.
  { pose proof (splitext_spec dir "" ".ipynb" Hdir eq_refl eq_refl eq_refl)
      as Hsplit.
    cbn [all_dots] in Hsplit. rewrite !sapp_nil_l in Hsplit.
    unfold derive_output_path. by rewrite Hsplit. }
  split; [apply endswith_app|]. split; [done|].
  rewrite Hout, sapp_assoc. by intros Heq%(inj (String.append dir)).
Qed.


Section Results.

Variable nbformat_reads : string -> Z -> result NotebookNode.

Implicit Types w : World.
Implicit Types np op p text : string.

(** C1: when the notebook at [np] parses to [nb] and the output can be
    opened, the run returns and the output file holds exactly the
    payloads of the cells whose type tag is "code", in the order of
    the notebook, each followed by two newline characters; no other
    cell contributes, and nothing is reordered, dropped or merged. *)
Theorem convert_writes_code_cells np op w text nb :
  files w !! np = Some text ->
  np ∉ rdenied w ->
  nbformat_reads text 4%Z = Ok nb ->
  op ∉ wdenied w ->
  exists w',
    convert_notebook_to_julia nbformat_reads np op w = (Ok tt, w')
    /\ files w' !! op = Some (spec_output nb).
Proof.
  intros Hf Hr Hnb Hw. eexists. split.
  - by apply (convert_ok nbformat_reads np op w text nb).
  - cbn. apply lookup_insert_eq.
Qed.

(** C4: the payload of every code cell, whatever characters it holds,
    stands unchanged in the output file, followed by the separator. *)
Theorem convert_keeps_payload np op w text nb cell :
  files w !! np = Some text ->
  np ∉ rdenied w ->
  nbformat_reads text 4%Z = Ok nb ->
  op ∉ wdenied w ->
  In cell (cells nb) ->
  cell_type cell = "code" ->
  exists w' before after,
    convert_notebook_to_julia nbformat_reads np op w = (Ok tt, w')
    /\ files w' !! op = Some (before +:+ source cell +:+ LFLF +:+ after).
Proof.
  intros Hf Hr Hnb Hw Hin Hc.
  destruct (concat_chunk (chunks (cells nb)) (source cell +:+ LFLF))
    as (before & after & Heq); [by apply chunks_code_cell|].
  eexists. exists before, after. split.
  - by apply (convert_ok nbformat_reads np op w text nb).
  - cbn. rewrite lookup_insert_eq. f_equal.
    unfold spec_output, code_payloads. fold (chunks (cells nb)).
    by rewrite Heq, sapp_assoc.
Qed.

(** C7: a notebook without code cells is converted without error, and
    the output file is empty. *)
Theorem convert_no_code_cells np op w text nb :
  files w !! np = Some text ->
  np ∉ rdenied w ->
  nbformat_reads text 4%Z = Ok nb ->
  op ∉ wdenied w ->
  Forall (fun c => cell_type c ≠ "code") (cells nb) ->
  exists w',
    convert_notebook_to_julia nbformat_reads np op w = (Ok tt, w')
    /\ files w' !! op = Some "".
Proof.
  intros Hf Hr Hnb Hw Hcells. eexists. split.
  - by apply (convert_ok nbformat_reads np op w text nb).
  - cbn. rewrite lookup_insert_eq. f_equal.
    unfold spec_output, code_payloads. fold (chunks (cells nb)).
    by rewrite (chunks_no_code _ Hcells).
Qed.

(** C3: a path that does not end in ".ipynb" is refused with the
    [ValueError] of line 27 (the InvalidInputError of the
    specification), whose message names the extension; the world is
    left as it was: no file is opened, read or written, and nothing is
    printed; the exit status is 1. *)
Theorem main_rejects_other_extension p w :
  Str.endswith p ".ipynb" = false ->
  exists msg,
    main nbformat_reads p w = (Raise (ValueError msg), w)
    /\ (exists a b, msg = a +:+ ".ipynb" +:+ b)
    /\ run_script nbformat_reads p w = (1%Z, w).
Proof.
  intros Hp. exists "Input file must have a .ipynb extension".
  split; [by apply main_rejected|]. split.
  - by exists "Input file must have a ", " extension".
  - unfold run_script. by rewrite (main_rejected _ _ _ Hp).
Qed.

(** C10: the test of the extension distinguishes upper and lower
    case: a path whose last characters spell ".ipynb" in another case
    is refused with the [ValueError] of line 27. *)
Theorem main_rejects_other_case stem ext w :
  lower ext = ".ipynb" ->
  ext ≠ ".ipynb" ->
  Str.endswith (stem +:+ ext) ".ipynb" = false
  /\ main nbformat_reads (stem +:+ ext) w
     = (Raise (ValueError "Input file must have a .ipynb extension"), w).
Proof.
  intros Hlow Hne.
  assert (Str.endswith (stem +:+ ext) ".ipynb" = false) as Hp.
  { rewrite endswith_same_length.
    - by apply String.eqb_neq.
    - by rewrite <- (length_lower ext), Hlow. }
  split; [done|]. by apply main_rejected.
Qed.

(** C6: when a run of [main] with a file already at the output path
    returns, a second run on the same input returns too and leaves
    every file as the first run left it; after either run the output
    file holds the text of the code cells alone, nothing of what was
    there before. *)
Theorem main_twice_same_output p w w1 old :
  files w !! derive_output_path p = Some old ->
  main nbformat_reads p w = (Ok tt, w1) ->
  exists w2 text nb,
    main nbformat_reads p w1 = (Ok tt, w2)
    /\ files w !! p = Some text
    /\ nbformat_reads text 4%Z = Ok nb
    /\ files w1 !! derive_output_path p = Some (spec_output nb)
    /\ files w2 !! derive_output_path p = Some (spec_output nb)
    /\ files w2 = files w1.
Proof.
  intros _ Hrun.
  destruct (main_ok_inv _ _ _ _ Hrun) as (Hp & text & nb & Hf & Hr & Hnb & Hw).
  rewrite (main_ok _ _ _ _ _ Hp Hf Hr Hnb Hw) in Hrun.
  injection Hrun as <-.
  eexists. exists text, nb. split.
  - apply (main_ok nbformat_reads p _ text nb); cbn; try done.
    rewrite lookup_insert_ne; [done|].
    intros Heq. by apply (output_path_fresh p).
  - cbn. rewrite insert_insert_eq, lookup_insert_eq. done.
Qed.

(** C8: a run of [main] that returns has created or overwritten the
    file at the derived output path and no other, has opened for
    writing or written to that path alone, has printed the one line
    that names the input and the output path, and the exit status
    is 0. *)
Theorem main_success_effects p w w' :
  main nbformat_reads p w = (Ok tt, w') ->
  (exists text, files w' = <[derive_output_path p := text]> (files w))
  /\ (forall q, q ≠ derive_output_path p -> files w' !! q = files w !! q)
  /\ stdout w'
     = stdout w ++ ["Converted " +:+ p +:+ " to " +:+ derive_output_path p]
  /\ (exists evs,
        events w' = events w ++ evs
        /\ forall q, q ∈ written_paths evs -> q = derive_output_path p)
  /\ run_script nbformat_reads p w = (0%Z, w').
Proof.
  intros Hrun.
  destruct (main_ok_inv _ _ _ _ Hrun) as (Hp & text & nb & Hf & Hr & Hnb & Hw).
  pose proof Hrun as Hrun'.
  rewrite (main_ok _ _ _ _ _ Hp Hf Hr Hnb Hw) in Hrun'.
  injection Hrun' as <-. cbn.
  split; [by eexists|]. split; [by intros q Hq; rewrite lookup_insert_ne|].
  split; [done|]. split.
  - eexists. split; [done|]. intros q. unfold written_paths.
    cbn. rewrite !omap_app. cbn.
    rewrite elem_of_cons, !elem_of_app, !elem_of_nil.
    intros [-> | [[Hq | []] | []]]; [done|].
    by apply written_paths_writes in Hq.
  - unfold run_script. by rewrite Hrun.
Qed.

End Results.

(** * The results on the sample world *)

(** The scenario of the specification: a markdown cell and two code
    cells give the text of the two code cells. *)
Example scenario_output :
  files (main sample_reads "demo.ipynb" sample_world).2 !! "demo.jl"
  = Some ("x = 1" +:+ LFLF +:+ "y = 2" +:+ LFLF).
Proof. vm_compute. reflexivity. Qed.

(** Equal code cells are written as often as they occur. *)
Example special_output :
  spec_output special_notebook
  = "using Test" +:+ LFLF +:+ source special_cell +:+ LFLF
    +:+ "using Test" +:+ LFLF.
Proof. vm_compute. reflexivity. Qed.

(** A destination that cannot be opened makes the run fail after the
    input has been read. *)
Example locked_output :
  (convert_notebook_to_julia sample_reads "demo.ipynb" "locked.jl" sample_world).1
  = Raise (OSError "locked.jl").
Proof. vm_compute. reflexivity. Qed.

Lemma convert_writes_code_cells_witness :
  files sample_world !! "demo.ipynb" = Some "{sample}"
  /\ sample_reads "{sample}" 4%Z = Ok sample_notebook
  /\ exists w',
      convert_notebook_to_julia sample_reads "demo.ipynb" "demo.jl" sample_world
      = (Ok tt, w')
      /\ files w' !! "demo.jl" = Some (spec_output sample_notebook).
Proof.
  split; [evaluate|]. split; [evaluate|].
  apply (convert_writes_code_cells sample_reads "demo.ipynb" "demo.jl"
           sample_world "{sample}" sample_notebook); evaluate.
Defined.


Lemma output_path_of_accepted_path_witness :
  no_slash "demo" = true
  /\ Str.endswith ("notebooks/" +:+ "demo" +:+ ".ipynb") ".ipynb" = true
  /\ derive_output_path ("notebooks/" +:+ "demo" +:+ ".ipynb")
     = if all_dots "demo"
       then ("notebooks/" +:+ "demo" +:+ ".ipynb") +:+ ".jl"
       else "notebooks/" +:+ "demo" +:+ ".jl".
Proof.
  split; [evaluate|].
  apply (output_path_of_accepted_path "notebooks/" "demo").
  - right. exists "notebooks". reflexivity.
  - evaluate.
Defined.

(** C2 as it is written fails at the path ".ipynb": the path is
    accepted, and its output path is not ".jl". *)
Lemma output_path_not_replaced :
  Str.endswith ("" +:+ ".ipynb") ".ipynb" = true
  /\ derive_output_path ("" +:+ ".ipynb") ≠ "" +:+ ".jl".
Proof. split; evaluate. Qed.

Lemma output_path_of_dotfile_witness :
  Str.endswith ("proj/" +:+ ".ipynb") ".ipynb" = true
  /\ derive_output_path ("proj/" +:+ ".ipynb") = ("proj/" +:+ ".ipynb") +:+ ".jl"
  /\ derive_output_path ("proj/" +:+ ".ipynb") ≠ "proj/" +:+ ".jl".
Proof.
  apply (output_path_of_dotfile "proj/"). right. exists "proj". reflexivity.
Defined.

Lemma main_rejects_other_extension_witness :
  Str.endswith "notes.txt" ".ipynb" = false
  /\ exists msg,
      main sample_reads "notes.txt" sample_world
      = (Raise (ValueError msg), sample_world)
      /\ (exists a b, msg = a +:+ ".ipynb" +:+ b)
      /\ run_script sample_reads "notes.txt" sample_world = (1%Z, sample_world).
Proof.
  split; [evaluate|].
  apply (main_rejects_other_extension sample_reads "notes.txt" sample_world).
  evaluate.
Defined.

Lemma main_rejects_other_case_witness :
  lower ".IPYNB" = ".ipynb"
  /\ Str.endswith ("Demo" +:+ ".IPYNB") ".ipynb" = false
  /\ main sample_reads ("Demo" +:+ ".IPYNB") sample_world
     = (Raise (ValueError "Input file must have a .ipynb extension"),
        sample_world).
Proof.
  split; [evaluate|].
  apply (main_rejects_other_case sample_reads "Demo" ".IPYNB" sample_world);
    evaluate.
Defined.

Lemma convert_keeps_payload_witness :
  In special_cell (cells special_notebook)
  /\ exists w' before after,
      convert_notebook_to_julia sample_reads "special.ipynb" "special.jl"
        sample_world = (Ok tt, w')
      /\ files w' !! "special.jl"
         = Some (before +:+ source special_cell +:+ LFLF +:+ after).
Proof.
  assert (In special_cell (cells special_notebook)) as Hin
    by (cbn; right; right; left; reflexivity).
  split; [exact Hin|].
  apply (convert_keeps_payload sample_reads "special.ipynb" "special.jl"
           sample_world "{special}" special_notebook special_cell);
    first [exact Hin | evaluate].
Defined.

Lemma convert_no_code_cells_witness :
  Forall (fun c => cell_type c ≠ "code") (cells prose_notebook)
  /\ exists w',
      convert_notebook_to_julia sample_reads "prose.ipynb" "prose.jl"
        sample_world = (Ok tt, w')
      /\ files w' !! "prose.jl" = Some "".
Proof.
  assert (Forall (fun c => cell_type c ≠ "code") (cells prose_notebook)) as Hall
    by (repeat constructor; discriminate).
  split; [exact Hall|].
  apply (convert_no_code_cells sample_reads "prose.ipynb" "prose.jl"
           sample_world "{prose}" prose_notebook);
    first [exact Hall | evaluate].
Defined.

Lemma main_twice_same_output_witness :
  files sample_world !! derive_output_path "demo.ipynb" = Some "stale text"
  /\ exists w2 text nb,
      main sample_reads "demo.ipynb"
        (main sample_reads "demo.ipynb" sample_world).2 = (Ok tt, w2)
      /\ files sample_world !! "demo.ipynb" = Some text
      /\ sample_reads text 4%Z = Ok nb
      /\ files (main sample_reads "demo.ipynb" sample_world).2
           !! derive_output_path "demo.ipynb" = Some (spec_output nb)
      /\ files w2 !! derive_output_path "demo.ipynb" = Some (spec_output nb)
      /\ files w2 = files (main sample_reads "demo.ipynb" sample_world).2.
Proof.
  split; [evaluate|].
  apply (main_twice_same_output sample_reads "demo.ipynb" sample_world
           (main sample_reads "demo.ipynb" sample_world).2 "stale text");
    evaluate.
Defined.

Lemma main_success_effects_witness :
  main sample_reads "demo.ipynb" sample_world
  = (Ok tt, (main sample_reads "demo.ipynb" sample_world).2)
  /\ (exists text,
        files (main sample_reads "demo.ipynb" sample_world).2
        = <[derive_output_path "demo.ipynb" := text]> (files sample_world))
  /\ (forall q, q ≠ derive_output_path "demo.ipynb" ->
        files (main sample_reads "demo.ipynb" sample_world).2 !! q
        = files sample_world !! q)
  /\ stdout (main sample_reads "demo.ipynb" sample_world).2
     = stdout sample_world
       ++ ["Converted " +:+ "demo.ipynb" +:+ " to "
           +:+ derive_output_path "demo.ipynb"]
  /\ (exists evs,
        events (main sample_reads "demo.ipynb" sample_world).2
        = events sample_world ++ evs
        /\ forall q, q ∈ written_paths evs -> q = derive_output_path "demo.ipynb")
  /\ run_script sample_reads "demo.ipynb" sample_world
     = (0%Z, (main sample_reads "demo.ipynb" sample_world).2).
Proof.
  split; [evaluate|].
  apply (main_success_effects sample_reads "demo.ipynb" sample_world
           (main sample_reads "demo.ipynb" sample_world).2).
  evaluate.
Defined.

Example sample_console :
  stdout (main sample_reads "demo.ipynb" sample_world).2
  = ["Converted demo.ipynb to demo.jl"].
Proof. evaluate. Qed.

(** * Further properties of the script *)

(** ** More facts about strings and chunks *)

Section MoreFacts.

Implicit Types s t : string.
Implicit Types cs : list Cell.

Lemma sapp_cancel_r s1 s2 t : s1 +:+ t = s2 +:+ t -> s1 = s2.
Proof.
  revert s2. induction s1 as [|a s1 IH]; intros [|b s2] Heq.
  - done.
  - apply (f_equal String.length) in Heq.
    rewrite sapp_nil_l, sapp_cons in Heq. cbn in Heq.
    rewrite slength_app in Heq. lia.
  - apply (f_equal String.length) in Heq.
    rewrite sapp_nil_l, sapp_cons in Heq. cbn in Heq.
    rewrite slength_app in Heq. lia.
  - rewrite !sapp_cons in Heq. injection Heq as -> Heq.
    by rewrite (IH _ Heq).
Qed.

Lemma all_dots_app s t : all_dots (s +:+ t) = all_dots s && all_dots t.
Proof.
  induction s as [|c s IH]; [done|].
  rewrite sapp_cons. cbn [all_dots]. by rewrite IH, andb_assoc.
Qed.

Lemma chunks_app cs1 cs2 : chunks (cs1 ++ cs2) = chunks cs1 ++ chunks cs2.
Proof. unfold chunks. by rewrite List.filter_app, !map_app. Qed.

Lemma foldr_sapp (l1 l2 : list string) :
  foldr String.append "" (l1 ++ l2)
  = foldr String.append "" l1 +:+ foldr String.append "" l2.
Proof.
  induction l1 as [|x l1 IH]; [done|]. cbn [app foldr].
  by rewrite IH, sapp_assoc.
Qed.

Lemma length_foldr_sapp (l : list string) :
  String.length (foldr String.append "" l) = sum_list (map String.length l).
Proof.
  induction l as [|x l IH]; [done|]. cbn [foldr map sum_list].
  by rewrite slength_app, IH.
Qed.

Lemma spec_output_chunks nb :
  spec_output nb = foldr String.append "" (chunks (cells nb)).
Proof. reflexivity. Qed.

(** The text of a list of cells is empty only when no cell is a code
    cell: every chunk holds the two newline characters. *)
Lemma chunks_text_empty cs :
  foldr String.append "" (chunks cs) = ""
  <-> Forall (fun c => cell_type c ≠ "code") cs.
Proof.
  split.
  - induction cs as [|c cs IH]; [done|]. rewrite chunks_cons.
    destruct (String.eqb (cell_type c) "code") eqn:Hc.
    + cbn [foldr]. intros Heq. apply (f_equal String.length) in Heq.
      rewrite !slength_app in Heq. cbn in Heq. lia.
    + intros Heq. constructor; [by apply String.eqb_neq | by apply IH].
  - intros Hall. by rewrite (chunks_no_code _ Hall).
Qed.

End MoreFacts.

(** ** Outcomes of a run *)

Section FurtherResults.

Variable nbformat_reads : string -> Z -> result NotebookNode.

Implicit Types w : World.
Implicit Types np op p text : string.


(** X1: when the notebook loads but the output path cannot be opened
    for writing, [main] raises the [OSError] of that [open]; the input
    has been opened, read and closed, no file has changed, nothing has
    been printed, and the exit status is 1. *)
Theorem main_output_refused p w text nb :
  Str.endswith p ".ipynb" = true ->
  files w !! p = Some text ->
  p ∉ rdenied w ->
  nbformat_reads text 4%Z = Ok nb ->
  derive_output_path p ∈ wdenied w ->
  exists w',
    main nbformat_reads p w = (Raise (OSError (derive_output_path p)), w')
    /\ files w' = files w
    /\ stdout w' = stdout w
    /\ events w'
       = events w ++ [EvOpen p "r"; EvRead p; EvClose p;
                      EvOpen (derive_output_path p) "w"]
    /\ run_script nbformat_reads p w = (1%Z, w').
Proof.
  intros Hp Hf Hr Hnb Hw.
  assert (main nbformat_reads p w
          = (Raise (OSError (derive_output_path p)),
             mkWorld (files w) (rdenied w) (wdenied w) (stdout w)
               (events w ++ [EvOpen p "r"; EvRead p; EvClose p;
                             EvOpen (derive_output_path p) "w"]))) as Hrun.
  { rewrite (main_accepted _ _ Hp). unfold mbind, M_bind.
    by rewrite (convert_write_denied _ _ _ _ _ _ Hf Hr Hnb Hw). }
  eexists. split; [exact Hrun|]. repeat split.
  unfold run_script. by rewrite Hrun.
Qed.

(** X4: a conversion that succeeds makes these calls, in this order:
    open the input, read it, close it; open the output; one write for
    each code cell, in the order of the notebook, of its payload and
    two newline characters; close the output. *)
Theorem convert_system_calls np op w text nb :
  files w !! np = Some text ->
  np ∉ rdenied w ->
  nbformat_reads text 4%Z = Ok nb ->
  op ∉ wdenied w ->
  exists w',
    convert_notebook_to_julia nbformat_reads np op w = (Ok tt, w')
    /\ events w'
       = events w
         ++ [EvOpen np "r"; EvRead np; EvClose np; EvOpen op "w"]
         ++ map (fun s => EvWrite op (s +:+ LFLF)) (code_payloads nb)
         ++ [EvClose op].
Proof.
  intros Hf Hr Hnb Hw. eexists. split.
  - by apply (convert_ok nbformat_reads np op w text nb).
  - cbn [events]. unfold chunks, code_payloads. by rewrite map_map.
Qed.

(** X5: when the reader raises, the input file is closed all the same,
    the exception of the reader is passed on as it is, and the output
    is not opened. *)
Theorem convert_reader_failure_closes_input np op w text e :
  files w !! np = Some text ->
  np ∉ rdenied w ->
  nbformat_reads text 4%Z = Raise e ->
  exists w',
    convert_notebook_to_julia nbformat_reads np op w = (Raise e, w')
    /\ events w' = events w ++ [EvOpen np "r"; EvRead np; EvClose np].
Proof.
  intros Hf Hr Hnb.
  exists (mkWorld (files w) (rdenied w) (wdenied w) (stdout w)
            (events w ++ [EvOpen np "r"; EvRead np; EvClose np])).
  split; [|reflexivity].
  unfold convert_notebook_to_julia, with_, open_, finally, nbformat_read.
  unfold fread, fclose, lift, mbind, M_bind. cbn. rewrite Hf.
  rewrite decide_False by done. cbn. rewrite Hf, Hnb.
  unfold record. cbn. by rewrite <- !app_assoc.
Qed.


End FurtherResults.

(** ** The output path as a function of the input path *)

(** An accepted path of which [splitext] splits off the extension is a
    stem followed by ".ipynb", and its output path is the stem followed
    by ".jl". *)
Lemma output_path_of_split_path (p : string) :
  Str.endswith p ".ipynb" = true ->
  (posixpath.splitext p).2 = ".ipynb" ->
  exists stem, p = stem +:+ ".ipynb" /\ derive_output_path p = stem +:+ ".jl".
Proof.
  intros (dir & name & -> & Hdir & Hname)%accepted_path_split Hext.
  unfold derive_output_path.
  rewrite (splitext_spec dir name ".ipynb" Hdir Hname eq_refl eq_refl) in Hext |- *.
  destruct (all_dots name); [done|].
  exists (dir +:+ name). by rewrite sapp_assoc.
Qed.

(** X7: among the accepted paths of which [splitext] splits off the
    extension, two different inputs never share an output path. *)
Theorem output_path_injective (p1 p2 : string) :
  Str.endswith p1 ".ipynb" = true ->
  Str.endswith p2 ".ipynb" = true ->
  (posixpath.splitext p1).2 = ".ipynb" ->
  (posixpath.splitext p2).2 = ".ipynb" ->
  derive_output_path p1 = derive_output_path p2 ->
  p1 = p2.
Proof.
  intros Hp1 Hp2 Hx1 Hx2 Heq.
  destruct (output_path_of_split_path p1 Hp1 Hx1) as (s1 & -> & Ho1).
  destruct (output_path_of_split_path p2 Hp2 Hx2) as (s2 & -> & Ho2).
  rewrite Ho1, Ho2 in Heq. by rewrite (sapp_cancel_r _ _ _ Heq).
Qed.

(** X8: a path whose final component is dots followed by "ipynb" and
    the same path with a second ".ipynb" added are both accepted, are
    different, and have the same output path: the two notebooks are
    converted into the same file. *)
Theorem output_path_collision (dir name : string) :
  (dir = "" \/ exists d, dir = d +:+ "/") ->
  no_slash name = true ->
  all_dots name = true ->
  Str.endswith (dir +:+ name +:+ ".ipynb") ".ipynb" = true
  /\ Str.endswith ((dir +:+ name +:+ ".ipynb") +:+ ".ipynb") ".ipynb" = true
  /\ dir +:+ name +:+ ".ipynb" ≠ (dir +:+ name +:+ ".ipynb") +:+ ".ipynb"
  /\ derive_output_path (dir +:+ name +:+ ".ipynb")
     = derive_output_path ((dir +:+ name +:+ ".ipynb") +:+ ".ipynb").
Proof.
  intros Hdir Hname Hdots.
  split; [rewrite <- sapp_assoc; apply endswith_app|].
  split; [apply endswith_app|]. split.
  - intros Heq. apply (f_equal String.length) in Heq.
    rewrite !slength_app in Heq. cbn in Heq. lia.
  - assert ((dir +:+ name +:+ ".ipynb") +:+ ".ipynb"
            = dir +:+ (name +:+ ".ipynb") +:+ ".ipynb") as ->
      by (by rewrite !sapp_assoc).
    assert (no_slash (name +:+ ".ipynb") = true) as Hname'.
    { apply no_slash_index. apply rfind_index_none_app; [|done].
      by apply no_slash_index. }
    assert (all_dots (name +:+ ".ipynb") = false) as Hdots'
      by (by rewrite all_dots_app, Hdots).
    unfold derive_output_path.
    rewrite (splitext_spec dir name ".ipynb" Hdir Hname eq_refl eq_refl).
    rewrite (splitext_spec dir (name +:+ ".ipynb") ".ipynb" Hdir Hname'
               eq_refl eq_refl).
    rewrite Hdots, Hdots'. cbn [fst]. by rewrite !sapp_assoc.
Qed.

(** ** The text written *)

Section FurtherOutput.

Variable nbformat_reads : string -> Z -> result NotebookNode.

Implicit Types w : World.
Implicit Types np op text : string.

(** X9: the text written for a notebook is the text of its first cells
    followed by the text of the cells that come after them. *)
Theorem convert_output_app np op w text nb cs1 cs2 :
  files w !! np = Some text ->
  np ∉ rdenied w ->
  nbformat_reads text 4%Z = Ok nb ->
  op ∉ wdenied w ->
  cells nb = cs1 ++ cs2 ->
  exists w',
    convert_notebook_to_julia nbformat_reads np op w = (Ok tt, w')
    /\ files w' !! op
       = Some (spec_output (mkNotebook (nbformat nb) (nbformat_minor nb) cs1)
               +:+ spec_output (mkNotebook (nbformat nb) (nbformat_minor nb) cs2)).
Proof.
  intros Hf Hr Hnb Hw Hcells. eexists. split.
  - by apply (convert_ok nbformat_reads np op w text nb).
  - cbn [files]. rewrite lookup_insert_eq. f_equal.
    rewrite !spec_output_chunks. cbn [cells].
    by rewrite Hcells, chunks_app, foldr_sapp.
Qed.

(** X10: the number of characters of the output file is the sum, over
    the code cells, of the length of the payload plus two; the file is
    empty exactly when the notebook has no code cell. *)
Theorem convert_output_length np op w text nb :
  files w !! np = Some text ->
  np ∉ rdenied w ->
  nbformat_reads text 4%Z = Ok nb ->
  op ∉ wdenied w ->
  exists w' out,
    convert_notebook_to_julia nbformat_reads np op w = (Ok tt, w')
    /\ files w' !! op = Some out
    /\ String.length out
       = sum_list (map (fun s => String.length s + 2)%nat (code_payloads nb))
    /\ (out = "" <-> Forall (fun c => cell_type c ≠ "code") (cells nb)).
Proof.
  intros Hf Hr Hnb Hw. eexists. exists (spec_output nb). split.
  - by apply (convert_ok nbformat_reads np op w text nb).
  - split; [cbn [files]; apply lookup_insert_eq|]. split.
    + unfold spec_output. rewrite length_foldr_sapp, map_map. f_equal.
      apply map_ext. intros s. by rewrite slength_app.
    + rewrite spec_output_chunks. apply chunks_text_empty.
Qed.

(** X11: when the notebook has a code cell, the output file ends with
    the payload of the last code cell and two newline characters;
    nothing follows them. *)
Theorem convert_output_ends_with_separator np op w text nb init lst :
  files w !! np = Some text ->
  np ∉ rdenied w ->
  nbformat_reads text 4%Z = Ok nb ->
  op ∉ wdenied w ->
  code_payloads nb = init ++ [lst] ->
  exists w' before,
    convert_notebook_to_julia nbformat_reads np op w = (Ok tt, w')
    /\ files w' !! op = Some (before +:+ lst +:+ LFLF).
Proof.
  intros Hf Hr Hnb Hw Hlast. eexists.
  exists (foldr String.append "" (map (fun s => s +:+ LFLF) init)). split.
  - by apply (convert_ok nbformat_reads np op w text nb).
  - cbn [files]. rewrite lookup_insert_eq. f_equal. unfold spec_output.
    rewrite Hlast, map_app, foldr_sapp. cbn [map foldr].
    by rewrite sapp_nil_r.
Qed.

(** X12: the files left by a conversion do not depend on what stood at
    the output path before: the old text is replaced as a whole. *)
Theorem convert_ignores_old_output np op w text nb old :
  np ≠ op ->
  files w !! np = Some text ->
  np ∉ rdenied w ->
  nbformat_reads text 4%Z = Ok nb ->
  op ∉ wdenied w ->
  files (convert_notebook_to_julia nbformat_reads np op
           (set_files (<[op := old]> (files w)) w)).2
  = files (convert_notebook_to_julia nbformat_reads np op w).2.
Proof.
  intros Hne Hf Hr Hnb Hw.
  rewrite (convert_ok _ _ _ _ _ _ Hf Hr Hnb Hw).
  rewrite (convert_ok nbformat_reads np op _ text nb); cbn; try done.
  - by rewrite insert_insert_eq.
  - by rewrite lookup_insert_ne.
Qed.

End FurtherOutput.

(** ** The further properties on the sample worlds *)

Lemma main_output_refused_witness :
  derive_output_path "locked.ipynb" ∈ wdenied locked_world
  /\ exists w',
      main sample_reads "locked.ipynb" locked_world
      = (Raise (OSError (derive_output_path "locked.ipynb")), w')
      /\ files w' = files locked_world
      /\ stdout w' = stdout locked_world
      /\ events w'
         = events locked_world
           ++ [EvOpen "locked.ipynb" "r"; EvRead "locked.ipynb";
               EvClose "locked.ipynb";
               EvOpen (derive_output_path "locked.ipynb") "w"]
      /\ run_script sample_reads "locked.ipynb" locked_world = (1%Z, w').
Proof.
  assert (derive_output_path "locked.ipynb" ∈ wdenied locked_world) as Hw
    by evaluate.
  split; [exact Hw|].
  apply (main_output_refused sample_reads "locked.ipynb" locked_world
           "{sample}" sample_notebook);
    first [exact Hw | evaluate].
Defined.

Lemma convert_system_calls_witness :
  code_payloads sample_notebook = ["x = 1"; "y = 2"]
  /\ exists w',
      convert_notebook_to_julia sample_reads "demo.ipynb" "demo.jl" sample_world
      = (Ok tt, w')
      /\ events w'
         = events sample_world
           ++ [EvOpen "demo.ipynb" "r"; EvRead "demo.ipynb";
               EvClose "demo.ipynb"; EvOpen "demo.jl" "w"]
           ++ map (fun s => EvWrite "demo.jl" (s +:+ LFLF))
                  (code_payloads sample_notebook)
           ++ [EvClose "demo.jl"].
Proof.
  split; [evaluate|].
  apply (convert_system_calls sample_reads "demo.ipynb" "demo.jl" sample_world
           "{sample}" sample_notebook); evaluate.
Defined.

Lemma convert_reader_failure_closes_input_witness :
  sample_reads "not a notebook" 4%Z
  = Raise (ReaderError "Notebook does not appear to be JSON")
  /\ exists w',
      convert_notebook_to_julia sample_reads "broken.ipynb" "broken.jl"
        sample_world
      = (Raise (ReaderError "Notebook does not appear to be JSON"), w')
      /\ events w'
         = events sample_world
           ++ [EvOpen "broken.ipynb" "r"; EvRead "broken.ipynb";
               EvClose "broken.ipynb"].
Proof.
  split; [evaluate|].
  apply (convert_reader_failure_closes_input sample_reads "broken.ipynb"
           "broken.jl" sample_world "not a notebook"); evaluate.
Defined.


Lemma output_path_injective_witness :
  (posixpath.splitext "a/demo.ipynb").2 = ".ipynb"
  /\ derive_output_path "a/demo.ipynb" = derive_output_path "a/demo.ipynb"
  /\ "a/demo.ipynb" = "a/demo.ipynb".
Proof.
  split; [evaluate|]. split; [evaluate|].
  apply (output_path_injective "a/demo.ipynb" "a/demo.ipynb"); evaluate.
Defined.

Lemma output_path_collision_witness :
  Str.endswith ("" +:+ "" +:+ ".ipynb") ".ipynb" = true
  /\ Str.endswith (("" +:+ "" +:+ ".ipynb") +:+ ".ipynb") ".ipynb" = true
  /\ "" +:+ "" +:+ ".ipynb" ≠ ("" +:+ "" +:+ ".ipynb") +:+ ".ipynb"
  /\ derive_output_path ("" +:+ "" +:+ ".ipynb")
     = derive_output_path (("" +:+ "" +:+ ".ipynb") +:+ ".ipynb").
Proof.
  apply (output_path_collision "" ""); first [by left | evaluate].
Defined.

Example collision_of_dotfile :
  derive_output_path ".ipynb" = ".ipynb.jl"
  /\ derive_output_path ".ipynb.ipynb" = ".ipynb.jl".
Proof. split; evaluate. Qed.

Lemma convert_output_app_witness :
  cells sample_notebook
  = [mkCell "markdown" "# Title"; mkCell "code" "x = 1"] ++ [mkCell "code" "y = 2"]
  /\ exists w',
      convert_notebook_to_julia sample_reads "demo.ipynb" "demo.jl" sample_world
      = (Ok tt, w')
      /\ files w' !! "demo.jl"
         = Some (spec_output
                   (mkNotebook (nbformat sample_notebook)
                      (nbformat_minor sample_notebook)
                      [mkCell "markdown" "# Title"; mkCell "code" "x = 1"])
                 +:+ spec_output
                       (mkNotebook (nbformat sample_notebook)
                          (nbformat_minor sample_notebook)
                          [mkCell "code" "y = 2"])).
Proof.
  split; [evaluate|].
  apply (convert_output_app sample_reads "demo.ipynb" "demo.jl" sample_world
           "{sample}" sample_notebook); evaluate.
Defined.

Lemma convert_output_length_witness :
  sum_list (map (fun s => String.length s + 2)%nat (code_payloads sample_notebook))
  = 14%nat
  /\ exists w' out,
      convert_notebook_to_julia sample_reads "demo.ipynb" "demo.jl" sample_world
      = (Ok tt, w')
      /\ files w' !! "demo.jl" = Some out
      /\ String.length out
         = sum_list (map (fun s => String.length s + 2)%nat
                       (code_payloads sample_notebook))
      /\ (out = "" <-> Forall (fun c => cell_type c ≠ "code")
                         (cells sample_notebook)).
Proof.
  split; [evaluate|].
  apply (convert_output_length sample_reads "demo.ipynb" "demo.jl" sample_world
           "{sample}" sample_notebook); evaluate.
Defined.

Lemma convert_output_ends_with_separator_witness :
  code_payloads sample_notebook = ["x = 1"] ++ ["y = 2"]
  /\ exists w' before,
      convert_notebook_to_julia sample_reads "demo.ipynb" "demo.jl" sample_world
      = (Ok tt, w')
      /\ files w' !! "demo.jl" = Some (before +:+ "y = 2" +:+ LFLF).
Proof.
  split; [evaluate|].
  apply (convert_output_ends_with_separator sample_reads "demo.ipynb" "demo.jl"
           sample_world "{sample}" sample_notebook ["x = 1"] "y = 2"); evaluate.
Defined.

Lemma convert_ignores_old_output_witness :
  files sample_world !! "demo.jl" = Some "stale text"
  /\ files (convert_notebook_to_julia sample_reads "demo.ipynb" "demo.jl"
              (set_files (<["demo.jl" := "other text"]> (files sample_world))
                 sample_world)).2
     = files (convert_notebook_to_julia sample_reads "demo.ipynb" "demo.jl"
                sample_world).2.
Proof.
  split; [evaluate|].
  apply (convert_ignores_old_output sample_reads "demo.ipynb" "demo.jl"
           sample_world "{sample}" sample_notebook "other text"); evaluate.
Defined.

(** * Notebooks that violate the schema *)

(** ** The two embeddings agree on the data model *)

Section DynFacts.

Implicit Types w : World.
Implicit Types np op text : string.

Lemma dyn_write_cell_agrees f (c : Cell) w :
  Dyn.write_cell f (dyn_cell c) w = write_cell f c w.
Proof.
  unfold Dyn.write_cell, write_cell, dyn_cell, Dyn.getattr, Dyn.add_str.
  unfold mbind, M_bind, mret, M_ret. cbn.
  by destruct (String.eqb (cell_type c) "code").
Qed.

Lemma dyn_for_agrees f (cs : list Cell) : forall w,
  for_ (map dyn_cell cs) (Dyn.write_cell f) w = for_ cs (write_cell f) w.
Proof.
  induction cs as [|c cs IH]; intros w; [done|].
  cbn [map for_]. unfold mbind, M_bind. rewrite dyn_write_cell_agrees.
  destruct (write_cell f c w) as [[[]|e] w1]; [apply IH | done].
Qed.

(** On a reader that answers notebooks of the data model, the script
    as embedded in [Dyn] runs as the script embedded at the top level. *)
Lemma convert_agrees_on_data_model
    (reads : string -> Z -> result NotebookNode) np op w :
  Dyn.convert_notebook_to_julia (dyn_reads reads) np op w
  = convert_notebook_to_julia reads np op w.
Proof.
  unfold Dyn.convert_notebook_to_julia, convert_notebook_to_julia, with_.
  unfold finally, Dyn.nbformat_read, nbformat_read, lift, dyn_reads.
  unfold mbind, M_bind.
  destruct (open_ np "r" w) as [[f|e] w1]; [|done].
  destruct (fread f w1) as [[buf|e] w2]; [|by destruct (fclose f w2) as [[]]].
  destruct (reads buf 4%Z) as [nb|e]; destruct (fclose f w2) as [[[]|e'] w3];
    try done.
  cbn [dyn_notebook Dyn.cells].
  destruct (open_ op "w" w3) as [[g|e] w4]; [|done].
  by rewrite dyn_for_agrees.
Qed.

(** ** A cell on which lines 17 and 18 raise *)

Lemma dyn_write_cell_error f (c : Dyn.Cell) e w :
  Dyn.cell_error c = Some e -> Dyn.write_cell f c w = (Raise e, w).
Proof.
  unfold Dyn.cell_error, Dyn.write_cell, Dyn.getattr, Dyn.add_str.
  unfold mbind, M_bind, mret, M_ret, raise.
  destruct (Dyn.cell_type c) as [ty|]; [|by intros [= <-]].
  destruct (Dyn.is_code ty); [|done].
  destruct (Dyn.source c) as [[s|type_name]|]; [done | |]; by intros [= <-].
Qed.

(** The loop writes the chunks of the cells before the first cell that
    raises, and stops there. *)
Lemma dyn_write_cells_stop f good bad rest e :
  Dyn.cell_error bad = Some e ->
  forall w text,
    files w !! name f = Some text ->
    for_ (map dyn_cell good ++ bad :: rest) (Dyn.write_cell f) w
    = (Raise e,
       mkWorld (<[name f := text +:+ foldr String.append "" (chunks good)]> (files w))
               (rdenied w) (wdenied w) (stdout w)
               (events w ++ map (EvWrite (name f)) (chunks good))).
Proof.
  intros Hbad. induction good as [|c good IH]; intros w text Hf.
  - cbn [map app for_]. unfold mbind, M_bind.
    rewrite (dyn_write_cell_error _ _ _ _ Hbad). cbn.
    rewrite sapp_nil_r, (insert_id _ _ _ Hf), app_nil_r. by destruct w.
  - cbn [map app for_]. unfold mbind, M_bind at 1.
    rewrite dyn_write_cell_agrees, chunks_cons. unfold write_cell.
    destruct (String.eqb (cell_type c) "code").
    + unfold fwrite, mbind, M_bind, mret, M_ret. rewrite Hf.
      erewrite IH; [|cbn; apply lookup_insert_eq].
      cbn. by rewrite insert_insert_eq, sapp_assoc, <- app_assoc.
    + unfold mret, M_ret. by apply IH.
Qed.

End DynFacts.

(** ** Runs on a reader that answers any notebook *)

Section DynResults.

Variable nbformat_reads : string -> Z -> result Dyn.NotebookNode.

Implicit Types w : World.
Implicit Types np op text : string.

Lemma dyn_load_ok np w text nb :
  files w !! np = Some text ->
  np ∉ rdenied w ->
  nbformat_reads text 4%Z = Ok nb ->
  with_ (open_ np "r") (fun f => Dyn.nbformat_read nbformat_reads f 4%Z) w
  = (Ok nb,
     mkWorld (files w) (rdenied w) (wdenied w) (stdout w)
             (events w ++ [EvOpen np "r"; EvRead np; EvClose np])).
Proof.
  intros Hf Hr Hnb.
  unfold with_, open_, finally, Dyn.nbformat_read, fread, fclose, lift.
  unfold mbind, M_bind. cbn. rewrite Hf. rewrite decide_False by done.
  cbn. rewrite Hf, Hnb. unfold record. cbn. by rewrite <- !app_assoc.
Qed.

Lemma dyn_load_fail np w e :
  Dyn.load_failure nbformat_reads w np e ->
  exists evs,
    with_ (open_ np "r") (fun f => Dyn.nbformat_read nbformat_reads f 4%Z) w
    = (Raise e,
       mkWorld (files w) (rdenied w) (wdenied w) (stdout w) (events w ++ evs))
    /\ written_paths evs = [].
Proof.
  intros [Hf | text Hf Hr | text e' Hf Hr Hnb];
    unfold with_, open_, finally, Dyn.nbformat_read, fread, fclose, lift;
    unfold mbind, M_bind; cbn; rewrite Hf.
  - by exists [EvOpen np "r"].
  - rewrite decide_True by done. by exists [EvOpen np "r"].
  - rewrite decide_False by done. cbn. rewrite Hf, Hnb. unfold record. cbn.
    exists [EvOpen np "r"; EvRead np; EvClose np]. by rewrite <- !app_assoc.
Qed.

(** Once the notebook is loaded and the output opened, the run is the
    loop over the cells followed by the closing of the output. *)
Lemma dyn_convert_opened np op w text nb :
  files w !! np = Some text ->
  np ∉ rdenied w ->
  nbformat_reads text 4%Z = Ok nb ->
  op ∉ wdenied w ->
  Dyn.convert_notebook_to_julia nbformat_reads np op w
  = finally (for_ (Dyn.cells nb) (Dyn.write_cell (mkTextIO op)))
            (fclose (mkTextIO op))
      (mkWorld (<[op := ""]> (files w)) (rdenied w) (wdenied w) (stdout w)
         (events w ++ [EvOpen np "r"; EvRead np; EvClose np; EvOpen op "w"])).
Proof.
  intros Hf Hr Hnb Hw. unfold Dyn.convert_notebook_to_julia.
  unfold mbind, M_bind at 1. rewrite (dyn_load_ok _ _ _ _ Hf Hr Hnb).
  unfold with_, open_, mbind, M_bind. cbn.
  rewrite decide_False by done. unfold record, set_files. cbn.
  by rewrite <- !app_assoc.
Qed.

(** C5, as the code has it: when the input cannot be opened, or the
    reader raises, the run raises the exception of the open or of the
    reader, every file is as it was, and no file was opened for writing
    or written to: the output is opened only after the reader has
    returned.  What the reader returns is not checked against the
    schema. *)
Theorem convert_load_failure_leaves_files np op w e :
  Dyn.load_failure nbformat_reads w np e ->
  exists w' evs,
    Dyn.convert_notebook_to_julia nbformat_reads np op w = (Raise e, w')
    /\ files w' = files w
    /\ events w' = events w ++ evs
    /\ written_paths evs = [].
Proof.
  intros (evs & Hload & Hevs)%dyn_load_fail.
  exists (mkWorld (files w) (rdenied w) (wdenied w) (stdout w) (events w ++ evs)).
  exists evs. split; [|by repeat split].
  unfold Dyn.convert_notebook_to_julia, mbind, M_bind at 1. by rewrite Hload.
Qed.

(** X2: when lines 17 and 18 raise on a cell (no [cell_type]; or a code
    cell with no [source], or with a [source] that is not a string) and
    the cells before it belong to the data model, the run raises that
    exception after the output has been opened: the output file holds
    the text of the code cells before that cell and nothing of what it
    held, it has been closed, the later cells are not looked at, and
    no other file has changed. *)
Theorem convert_stops_at_bad_cell np op w text nb good bad rest e :
  files w !! np = Some text ->
  np ∉ rdenied w ->
  nbformat_reads text 4%Z = Ok nb ->
  op ∉ wdenied w ->
  Dyn.cells nb = map dyn_cell good ++ bad :: rest ->
  Dyn.cell_error bad = Some e ->
  exists w',
    Dyn.convert_notebook_to_julia nbformat_reads np op w = (Raise e, w')
    /\ files w'
       = <[op := spec_output
                   (mkNotebook (Dyn.nbformat nb) (Dyn.nbformat_minor nb) good)]>
           (files w)
    /\ events w'
       = events w
         ++ [EvOpen np "r"; EvRead np; EvClose np; EvOpen op "w"]
         ++ map (fun s => EvWrite op (s +:+ LFLF)) (map source (List.filter is_code_cell good))
         ++ [EvClose op].
Proof.
  intros Hf Hr Hnb Hw Hcells Hbad.
  rewrite (dyn_convert_opened _ _ _ _ _ Hf Hr Hnb Hw), Hcells.
  unfold finally.
  erewrite (dyn_write_cells_stop (mkTextIO op) good bad rest e Hbad);
    [|cbn; apply lookup_insert_eq].
  unfold fclose, record. cbn. eexists. split; [reflexivity|]. cbn. split.
  - by rewrite insert_insert_eq.
  - unfold chunks. by rewrite map_map, <- !app_assoc.
Qed.

End DynResults.

(** ** The sample notebooks that violate the schema *)

(** C5 as it is written fails on a notebook the reader returns although
    its second code cell has no [source]: the input does not have the
    expected structure, the run raises [AttributeError], and the output
    file, which held other text, is left with the first code cell
    alone. *)
Lemma partial_output_left_behind :
  files lenient_world !! "bad.ipynb" = Some "{unsourced}"
  /\ lenient_reads "{unsourced}" 4%Z = Ok unsourced_notebook
  /\ forallb Dyn.well_formed (Dyn.cells unsourced_notebook) = false
  /\ files lenient_world !! "bad.jl" = Some "stale text"
  /\ (Dyn.convert_notebook_to_julia lenient_reads "bad.ipynb" "bad.jl"
        lenient_world).1
     = Raise (AttributeError "source")
  /\ files (Dyn.convert_notebook_to_julia lenient_reads "bad.ipynb" "bad.jl"
              lenient_world).2 !! "bad.jl"
     = Some ("first" +:+ LFLF)
  /\ events (Dyn.convert_notebook_to_julia lenient_reads "bad.ipynb" "bad.jl"
               lenient_world).2
     = [EvOpen "bad.ipynb" "r"; EvRead "bad.ipynb"; EvClose "bad.ipynb";
        EvOpen "bad.jl" "w"; EvWrite "bad.jl" ("first" +:+ LFLF);
        EvClose "bad.jl"].
Proof. repeat split; evaluate. Qed.

(** A first cell without [cell_type] leaves the output file empty. *)
Example untyped_cell_truncates_output :
  (Dyn.convert_notebook_to_julia lenient_reads "untyped.ipynb" "untyped.jl"
     lenient_world).1
  = Raise (AttributeError "cell_type")
  /\ files lenient_world !! "untyped.jl" = Some "stale text"
  /\ files (Dyn.convert_notebook_to_julia lenient_reads "untyped.ipynb"
              "untyped.jl" lenient_world).2 !! "untyped.jl"
     = Some "".
Proof. repeat split; evaluate. Qed.

Lemma convert_load_failure_leaves_files_witness :
  Dyn.load_failure lenient_reads lenient_world "broken.ipynb"
    (ReaderError "Notebook does not appear to be JSON")
  /\ exists w' evs,
      Dyn.convert_notebook_to_julia lenient_reads "broken.ipynb" "broken.jl"
        lenient_world
      = (Raise (ReaderError "Notebook does not appear to be JSON"), w')
      /\ files w' = files lenient_world
      /\ events w' = events lenient_world ++ evs
      /\ written_paths evs = [].
Proof.
  assert (Dyn.load_failure lenient_reads lenient_world "broken.ipynb"
            (ReaderError "Notebook does not appear to be JSON")) as Hfail
    by (apply (Dyn.load_refused _ _ _ "not a notebook"); evaluate).
  split; [exact Hfail|].
  apply (convert_load_failure_leaves_files lenient_reads "broken.ipynb"
           "broken.jl" lenient_world _ Hfail).
Defined.

Lemma convert_stops_at_bad_cell_witness :
  Dyn.cells unsourced_notebook
  = map dyn_cell [mkCell "code" "first"]
    ++ Dyn.mkCell (Some (Dyn.PyStr "code")) None
       :: [Dyn.mkCell (Some (Dyn.PyStr "code")) (Some (Dyn.PyStr "never"))]
  /\ Dyn.cell_error (Dyn.mkCell (Some (Dyn.PyStr "code")) None)
     = Some (AttributeError "source")
  /\ exists w',
      Dyn.convert_notebook_to_julia lenient_reads "bad.ipynb" "bad.jl"
        lenient_world
      = (Raise (AttributeError "source"), w')
      /\ files w'
         = <["bad.jl" := spec_output
                           (mkNotebook (Dyn.nbformat unsourced_notebook)
                              (Dyn.nbformat_minor unsourced_notebook)
                              [mkCell "code" "first"])]>
             (files lenient_world)
      /\ events w'
         = events lenient_world
           ++ [EvOpen "bad.ipynb" "r"; EvRead "bad.ipynb"; EvClose "bad.ipynb";
               EvOpen "bad.jl" "w"]
           ++ map (fun s => EvWrite "bad.jl" (s +:+ LFLF))
                  (map source (List.filter is_code_cell [mkCell "code" "first"]))
           ++ [EvClose "bad.jl"].
Proof.
  split; [evaluate|]. split; [evaluate|].
  apply (convert_stops_at_bad_cell lenient_reads "bad.ipynb" "bad.jl"
           lenient_world "{unsourced}" unsourced_notebook
           [mkCell "code" "first"]
           (Dyn.mkCell (Some (Dyn.PyStr "code")) None)
           [Dyn.mkCell (Some (Dyn.PyStr "code")) (Some (Dyn.PyStr "never"))]
           (AttributeError "source")); evaluate.
Defined.
